(** * finance-ai: the Telegram message handler, embedded and verified

    The repository is one asynchronous event handler, [bot.on("message", ...)],
    that exists in three observed versions:

    - [TextOnly]  : src/index.js (text messages only);
    - [Photo]     : the first program of part_001 (photo support added,
                    same prompt-only extraction and same persistence code);
    - [Schema]    : the second program of part_001 (provider-enforced response
                    schema, [payed_at] defaulting, richer confirmation).

    The handler is embedded as a function in a state-and-exception monad over
    a [World] (the remote [payments] table and the trace of effects the
    handler performed).  Every external collaborator (Telegram, the HTTP
    client, the Gemini client, the Supabase client, the clock) and the
    JavaScript runtime functions whose result the handler only passes along
    ([JSON.parse], number formatting, date formatting, [trim]) are fields of
    an environment record [Env]; theorems quantify over every environment. *)

From Stdlib Require Import String Ascii List ZArith NArith Bool Floats Lia.
Import ListNotations.
Open Scope string_scope.

Set Warnings "-register-all".

(* ================================================================= *)
(** ** Strings *)

Definition LF : string := String "010"%char EmptyString.
Definition DQ : string := String "034"%char EmptyString.

(** [q s] is [s] between double quotes. *)
Definition q (s : string) : string := DQ ++ s ++ DQ.

(** Lines of a template literal, joined by line feeds. *)
Fixpoint lines (l : list string) : string :=
  match l with
  | [] => EmptyString
  | [s] => s
  | s :: rest => s ++ LF ++ lines rest
  end.

(** [String.prototype.includes]. *)
Fixpoint includes (needle hay : string) : bool :=
  if prefix needle hay then true
  else match hay with
       | EmptyString => false
       | String _ rest => includes needle rest
       end.

(* ================================================================= *)
(** ** Exceptions and results *)

Inductive exn : Type :=
| TypeError (what : string)      (* raised by the language itself *)
| SyntaxError (what : string)    (* raised by JSON.parse *)
| ServiceError (what : string).  (* a rejected promise of an external client *)

Inductive Result (A : Type) : Type :=
| Ok (a : A)
| Throw (e : exn).
Arguments Ok {A} a.
Arguments Throw {A} e.

Definition rbind {A B} (r : Result A) (k : A -> Result B) : Result B :=
  match r with
  | Ok a => k a
  | Throw e => Throw e
  end.

(* ================================================================= *)
(** ** JavaScript values

    The values [JSON.parse] can return, plus [undefined] (the result of
    reading an absent property).  Numbers are IEEE binary64, as in the
    language.  An array carries, besides its elements, the named properties
    assigned to it after parsing ([financialData.payed_at = ...] is an
    ordinary assignment and succeeds on an array). *)

Inductive value : Type :=
| VUndefined
| VNull
| VBool (b : bool)
| VNum (n : float)
| VStr (s : string)
| VArr (elems : list value) (named : list (string * value))
| VObj (props : list (string * value)).

(** The property names the handlers read.  None of them is an array index,
    [length], or a member of [Object.prototype], [Array.prototype],
    [String.prototype], [Number.prototype] or [Boolean.prototype], so a read
    finds either an own property or nothing. *)
Inductive key : Type :=
| k_value | k_description | k_category | k_payed_at | k_data
| k_location | k_merchant | k_payment_method | k_notes.

Definition key_name (k : key) : string :=
  match k with
  | k_value => "value"
  | k_description => "description"
  | k_category => "category"
  | k_payed_at => "payed_at"
  | k_data => "data"
  | k_location => "location"
  | k_merchant => "merchant"
  | k_payment_method => "payment_method"
  | k_notes => "notes"
  end.

Fixpoint lookup (name : string) (props : list (string * value)) : value :=
  match props with
  | [] => VUndefined
  | (n, v) :: rest => if String.eqb n name then v else lookup name rest
  end.

Fixpoint has_own (name : string) (props : list (string * value)) : bool :=
  match props with
  | [] => false
  | (n, _) :: rest => String.eqb n name || has_own name rest
  end.

Fixpoint assign (name : string) (v : value) (props : list (string * value))
  : list (string * value) :=
  match props with
  | [] => [(name, v)]
  | (n, old) :: rest =>
      if String.eqb n name then (n, v) :: rest else (n, old) :: assign name v rest
  end.

(** [o.k]: a [TypeError] on [null] and [undefined], [undefined] on the other
    primitives. *)
Definition get (o : value) (k : key) : Result value :=
  match o with
  | VUndefined | VNull =>
      Throw (TypeError ("Cannot read properties of null or undefined (reading "
                        ++ key_name k ++ ")"))
  | VObj props => Ok (lookup (key_name k) props)
  | VArr _ named => Ok (lookup (key_name k) named)
  | VBool _ | VNum _ | VStr _ => Ok VUndefined
  end.

(** [o.k = v] in sloppy mode (the files are CommonJS modules with no
    ["use strict"] directive): the assignment is silently dropped on a
    primitive. The result is the object the variable denotes afterwards. *)
Definition set (o : value) (k : key) (v : value) : Result value :=
  match o with
  | VUndefined | VNull =>
      Throw (TypeError ("Cannot set properties of null or undefined (setting "
                        ++ key_name k ++ ")"))
  | VObj props => Ok (VObj (assign (key_name k) v props))
  | VArr elems named => Ok (VArr elems (assign (key_name k) v named))
  | VBool _ | VNum _ | VStr _ => Ok o
  end.

(** ToBoolean. *)
Definition truthy (v : value) : bool :=
  match v with
  | VUndefined | VNull => false
  | VBool b => b
  | VNum n => negb (PrimFloat.is_zero n || PrimFloat.is_nan n)
  | VStr s => negb (String.eqb s EmptyString)
  | VArr _ _ | VObj _ => true
  end.

(** [v !== null]. *)
Definition not_null (v : value) : bool :=
  match v with
  | VNull => false
  | _ => true
  end.

(* ================================================================= *)
(** ** Base64 ([Buffer.prototype.toString("base64")], RFC 4648 section 4) *)

Definition b64_alphabet : string :=
  "ABCDEFGHIJKLMNOPQRSTUVWXYZabcdefghijklmnopqrstuvwxyz0123456789+/".

Definition b64_digit (n : N) : ascii :=
  match String.get (N.to_nat n) b64_alphabet with
  | Some c => c
  | None => "="%char
  end.

Definition sextet (word : N) (shift : N) : ascii :=
  b64_digit (N.land (N.shiftr word shift) 63).

Fixpoint base64 (bytes : list Byte.byte) : string :=
  match bytes with
  | [] => EmptyString
  | [a] =>
      let w := N.shiftl (Byte.to_N a) 16 in
      String (sextet w 18) (String (sextet w 12) "==")
  | [a; b] =>
      let w := N.lor (N.shiftl (Byte.to_N a) 16) (N.shiftl (Byte.to_N b) 8) in
      String (sextet w 18) (String (sextet w 12) (String (sextet w 6) "="))
  | a :: b :: c :: rest =>
      let w := N.lor (N.lor (N.shiftl (Byte.to_N a) 16)
                            (N.shiftl (Byte.to_N b) 8)) (Byte.to_N c) in
      String (sextet w 18) (String (sextet w 12)
        (String (sextet w 6) (String (sextet w 0) (base64 rest))))
  end.


(* ================================================================= *)
(** ** Messages, requests, rows *)

(** One entry of [msg.photo] (Telegram's PhotoSize). *)
Record PhotoSize : Type := { file_id : string }.

(** The fields of the inbound Telegram message the handlers read.  [None] is
    an absent ([undefined]) field. *)
Record Message : Type := {
  chat_id : Z;
  text : option string;
  photo : option (list PhotoSize)
}.

(** The answer of [bot.getFile]. *)
Record File : Type := { file_path : option string }.

(** What is handed to the extraction client: a prompt string, or the pair
    [[EXTRACTION_PROMPT, { inlineData: { data, mimeType } }]]. *)
Inductive Content : Type :=
| Text (prompt : string)
| WithImage (prompt : string) (data : string) (mimeType : string).

Inductive SchemaType : Type := T_OBJECT | T_NUMBER | T_STRING.

(** A response schema: type, nullability, properties and required names
    (the [description] and [format] annotations are left out). *)
Inductive Shape : Type :=
| schema (type : SchemaType) (nullable : bool)
         (properties : list (string * Shape)) (required : list string).

Definition FINANCIAL_SCHEMA : Shape :=
  schema T_OBJECT false
    [ ("value", schema T_NUMBER false [] []);
      ("description", schema T_STRING false [] []);
      ("category", schema T_STRING false [] []);
      ("payed_at", schema T_STRING true [] []);
      ("data", schema T_OBJECT true
         [ ("location", schema T_STRING true [] []);
           ("merchant", schema T_STRING true [] []);
           ("payment_method", schema T_STRING true [] []);
           ("notes", schema T_STRING true [] []) ] []) ]
    ["value"; "description"; "category"].

(** The [config] of the schema-enforced request. *)
Record Config : Type := {
  responseMimeType : string;
  responseSchema : Shape
}.

(** The object passed to [supabase.from("payments").insert([...])]. *)
Record Row : Type := {
  r_value : value;
  r_description : value;
  r_category : value;
  r_payed_at : value;
  r_data : value
}.

(** The [error] member of the Supabase answer. *)
Record StoreError : Type := { message : string }.

(** An argument of [console.log] / [console.error]. *)
Inductive Logged : Type :=
| LText (s : option string)
| LExn (e : exn)
| LStore (e : StoreError).

(** The effects a handler performs, in the order it performs them. *)
Inductive Event : Type :=
| EvGetFile (id : string)
| EvHttpGet (url : string)
| EvGenerate (contents : Content) (config : option Config)
| EvInsert (row : Row)
| EvSend (chat : Z) (body : string)
| EvLog (label : string) (arg : Logged).

Record World : Type := {
  payments : list Row;     (* the remote table *)
  events : list Event      (* what the handler did so far *)
}.

(** A store holding [db] and a handler that has not done anything yet. *)
Definition start (db : list Row) : World := {| payments := db; events := [] |}.

(** *** Observations of a trace *)

Definition sent (evs : list Event) : list (Z * string) :=
  flat_map (fun e => match e with EvSend c b => [(c, b)] | _ => [] end) evs.

Definition inserts (evs : list Event) : list Row :=
  flat_map (fun e => match e with EvInsert r => [r] | _ => [] end) evs.

Definition ai_calls (evs : list Event) : list Content :=
  flat_map (fun e => match e with EvGenerate c _ => [c] | _ => [] end) evs.

Definition fetches (evs : list Event) : list string :=
  flat_map (fun e => match e with
                     | EvGetFile i => [i]
                     | EvHttpGet u => [u]
                     | _ => []
                     end) evs.

(** How many of the replies satisfy [p]. *)
Definition count_replies (p : string -> bool) (evs : list Event) : nat :=
  length (filter (fun cb => p (snd cb)) (sent evs)).

(* ================================================================= *)
(** ** The environment *)

Record Env : Type := {
  (* the JavaScript runtime *)
  JSON_parse : string -> Result value;          (* [Throw]: a SyntaxError *)
  Number_toString : float -> string;
  String_trim : string -> string;
  Date_toLocaleDateString : value -> string;    (* [new Date(p).toLocaleDateString()], p primitive *)
  Date_now_toISOString : string;                (* [new Date().toISOString()] *)
  (* process.env *)
  TELEGRAM_BOT_TOKEN : option string;
  (* the external clients; [Throw] is a rejected promise *)
  bot_getFile : string -> Result File;
  axios_get : string -> Result (list Byte.byte);
  model_generateContent : Content -> Result string;                  (* [(await result.response).text()] *)
  ai_models_generateContent : Content -> Config -> Result (option string);  (* [response.text] *)
  supabase_insert : list Row -> Row -> option StoreError;            (* the answer's [error] *)
  bot_sendMessage : Z -> string -> option exn                        (* [None]: delivered *)
}.

(* ================================================================= *)
(** ** The handler monad: state, trace and exceptions *)

Definition M (A : Type) : Type := World -> Result A * World.

Definition ret {A} (a : A) : M A := fun w => (Ok a, w).

Definition bind {A B} (m : M A) (k : A -> M B) : M B :=
  fun w => match m w with
           | (Ok a, w') => k a w'
           | (Throw e, w') => (Throw e, w')
           end.

Definition lift {A} (r : Result A) : M A := fun w => (r, w).

Definition emit (e : Event) : M unit :=
  fun w => (Ok tt, {| payments := payments w; events := events w ++ [e] |}).

(** [try { body } catch (error) { handler }]. *)
Definition try_catch {A} (body : M A) (handler : exn -> M A) : M A :=
  fun w => match body w with
           | (Ok a, w') => (Ok a, w')
           | (Throw e, w') => handler e w'
           end.

Declare Scope js_scope.
Delimit Scope js_scope with js.
Notation "x <- m ;; k" := (bind m (fun x => k))
  (at level 61, m at next level, right associativity) : js_scope.
Notation "m ;; k" := (bind m (fun _ => k))
  (at level 61, right associativity) : js_scope.
Open Scope js_scope.

Definition opt_str (s : option string) : string :=
  match s with
  | Some s => s
  | None => "undefined"
  end.

Notation "x <~ r ;; k" := (rbind r (fun x => k))
  (at level 61, r at next level, right associativity) : js_scope.

(* ================================================================= *)
(** ** Constants of the source *)

(** The five fixed replies. *)
Definition REPLY_NOT_UNDERSTOOD : string :=
  "Sorry, I couldn't understand the financial information in your message.".
Definition REPLY_SAVE_ERROR : string :=
  "Sorry, there was an error saving your payment information.".
Definition REPLY_NO_DATA : string :=
  "I couldn't find any payment information in your message. Please make sure to include an amount and description.".
Definition REPLY_GENERIC : string :=
  "Sorry, there was an error processing your message.".
Definition REPLY_RESEND : string :=
  "Please send a text message or an image containing payment information.".

(** The first line of the confirmation and the blank line after it. *)
Definition RECORDED : string := "✅ Payment recorded!".
Definition HEADER : string := RECORDED ++ LF ++ LF.

Definition NULL_OBJECT : string :=
  "{" ++ q "value" ++ ": null, " ++ q "description" ++ ": null, "
      ++ q "category" ++ ": null, " ++ q "payed_at" ++ ": null, "
      ++ q "data" ++ ": {}}".

Definition JSON_SHAPE : list string :=
  [ "IMPORTANT: You must ONLY return a valid JSON object with the following structure:";
    "{";
    "  " ++ q "value" ++ ": <number>,";
    "  " ++ q "description" ++ ": " ++ q "<string>" ++ ",";
    "  " ++ q "category" ++ ": " ++ q "<string>" ++ ",";
    "  " ++ q "payed_at" ++ ": " ++ q "<ISO date string or null>" ++ ",";
    "  " ++ q "data" ++ ": {}";
    "}";
    EmptyString;
    "If no financial information is found, return exactly: " ++ NULL_OBJECT;
    EmptyString;
    "DO NOT include any additional text, explanations, or formatting - ONLY the JSON object.";
    EmptyString ].

Definition WANTED : list string :=
  [ "- Payment amount (in numbers)";
    "- Payment description";
    "- Category (e.g., food, transport, utilities)";
    "- Date (if mentioned)" ].

(** [EXTRACTION_PROMPT] of src/index.js. *)
Definition EXTRACTION_PROMPT_text : string :=
  lines ([ "You are a financial data extraction assistant. Your task is to extract financial information from messages and return it in a specific JSON format.";
           EmptyString;
           "When given a message, analyze it and extract:" ]
         ++ WANTED ++ [ EmptyString ] ++ JSON_SHAPE).

(** [EXTRACTION_PROMPT] of the first program of part_001. *)
Definition EXTRACTION_PROMPT_photo : string :=
  lines ([ "You are a financial data extraction assistant. Your task is to extract financial information from messages and return it in a specific JSON format.";
           EmptyString;
           "When given a message or image, analyze it and extract:" ]
         ++ WANTED
         ++ [ EmptyString;
              "For images, look for receipts, invoices, or any text containing payment information.";
              EmptyString ]
         ++ JSON_SHAPE).

(** [EXTRACTION_PROMPT] of the second program of part_001. *)
Definition EXTRACTION_PROMPT_schema : string :=
  lines ([ "Extract financial information from the input.";
           EmptyString;
           "For images, look for receipts, invoices, or any text containing payment information.";
           "For text messages, analyze the content for payment details.";
           EmptyString;
           "Focus on extracting:" ]
         ++ WANTED
         ++ [ "- Additional details like location, merchant, payment method, or any relevant notes" ]).

Definition SCHEMA_CONFIG : Config :=
  {| responseMimeType := "application/json"; responseSchema := FINANCIAL_SCHEMA |}.

(** The three versions of the handler. *)
Inductive variant : Type := TextOnly | Photo | Schema.

Definition EXTRACTION_PROMPT (v : variant) : string :=
  match v with
  | TextOnly => EXTRACTION_PROMPT_text
  | Photo => EXTRACTION_PROMPT_photo
  | Schema => EXTRACTION_PROMPT_schema
  end.

(* ================================================================= *)
(** ** The handlers *)

Section Handler.

Variable E : Env.

(** *** Conversions of the language *)

(** ToString, as a template literal applies it.  An object parsed from JSON
    has no callable own property: one that has an own [toString] can not be
    converted ([valueOf] returns the object itself), any other prints as
    [[object Object]]; an array prints its elements joined by commas, [null]
    and [undefined] as nothing. *)
Fixpoint ToString (v : value) : Result string :=
  match v with
  | VUndefined => Ok "undefined"
  | VNull => Ok "null"
  | VBool b => Ok (if b then "true" else "false")
  | VNum n => Ok (Number_toString E n)
  | VStr s => Ok s
  | VArr elems named =>
      if has_own "toString" named
      then Throw (TypeError "Cannot convert object to primitive value")
      else if has_own "join" named then Ok "[object Array]"
      else (fix join (l : list value) : Result string :=
              match l with
              | [] => Ok EmptyString
              | x :: rest =>
                  s <~ match x with
                       | VUndefined | VNull => Ok EmptyString
                       | _ => ToString x
                       end ;;
                  match rest with
                  | [] => Ok s
                  | _ => r <~ join rest ;; Ok (s ++ "," ++ r)
                  end
              end) elems
  | VObj props =>
      if has_own "toString" props
      then Throw (TypeError "Cannot convert object to primitive value")
      else Ok "[object Object]"
  end.

(** ToPrimitive, as [new Date(v)] applies it: for the values at hand it
    agrees with ToString on arrays and objects. *)
Definition ToPrimitive (v : value) : Result value :=
  match v with
  | VArr _ _ | VObj _ => s <~ ToString v ;; Ok (VStr s)
  | _ => Ok v
  end.

(** [new Date(v).toLocaleDateString()]. *)
Definition localeDate (v : value) : Result string :=
  p <~ ToPrimitive v ;; Ok (Date_toLocaleDateString E p).

(** *** Calls to the outside *)

Definition console (label : string) (arg : Logged) : M unit :=
  emit (EvLog label arg).

(** [await bot.sendMessage(chat, body)]. *)
Definition sendMessage (chat : Z) (body : string) : M unit :=
  emit (EvSend chat body) ;;
  lift (match bot_sendMessage E chat body with
        | None => Ok tt
        | Some e => Throw e
        end).

(** [await bot.getFile(id)]. *)
Definition getFile (id : string) : M File :=
  emit (EvGetFile id) ;; lift (bot_getFile E id).

(** [getImageAsBase64] (part_001, both programs). *)
Definition getImageAsBase64 (url : string) : M string :=
  emit (EvHttpGet url) ;;
  response <- lift (axios_get E url) ;;
  ret (base64 response).

(** [await supabase.from("payments").insert([row])]: the store answers with
    an [error] or keeps the row. *)
Definition insert (row : Row) : M (option StoreError) :=
  fun w =>
    let error := supabase_insert E (payments w) row in
    (Ok error,
     {| payments := match error with
                    | None => payments w ++ [row]
                    | Some _ => payments w
                    end;
        events := events w ++ [EvInsert row] |}).

(** [model.generateContent(c)], [await result.response], [response.text().trim()]
    (the older client, of [TextOnly] and [Photo]). *)
Definition model_generate (c : Content) : M (option string) :=
  emit (EvGenerate c None) ;;
  t <- lift (model_generateContent E c) ;;
  ret (Some (String_trim E t)).

(** [ai.models.generateContent({ model, contents, config })] and its
    [response.text] (the newer client, of [Schema]). *)
Definition ai_generate (c : Content) : M (option string) :=
  emit (EvGenerate c (Some SCHEMA_CONFIG)) ;;
  lift (ai_models_generateContent E c SCHEMA_CONFIG).

(** *** Persistence and reply *)

(** [financialData && financialData.value !== null]. *)
Definition qualifies (financialData : value) : M bool :=
  if truthy financialData
  then v <- lift (get financialData k_value) ;; ret (not_null v)
  else ret false.

(** The object literal passed to [insert]. *)
Definition row_of (financialData : value) : Result Row :=
  v <~ get financialData k_value ;;
  d <~ get financialData k_description ;;
  c <~ get financialData k_category ;;
  p <~ get financialData k_payed_at ;;
  x <~ get financialData k_data ;;
  Ok {| r_value := v; r_description := d; r_category := c;
        r_payed_at := p; r_data := x |}.

(** The three lines every confirmation starts with. *)
Definition recorded_lines (financialData : value) : Result string :=
  v <~ get financialData k_value ;;
  sv <~ ToString v ;;
  d <~ get financialData k_description ;;
  sd <~ ToString d ;;
  c <~ get financialData k_category ;;
  sc <~ ToString c ;;
  Ok (HEADER ++ "Amount: $" ++ sv ++ LF
             ++ "Description: " ++ sd ++ LF
             ++ "Category: " ++ sc).

(** The confirmation of src/index.js lines 92-101 and of the first program
    of part_001. *)
Definition confirmation_simple (financialData : value) : Result string :=
  head <~ recorded_lines financialData ;;
  p <~ get financialData k_payed_at ;;
  date <~ (if truthy p
           then s <~ localeDate p ;; Ok (LF ++ "Date: " ++ s)
           else Ok EmptyString) ;;
  Ok (head ++ date).

(** [if (data.k) { responseMessage += `\n<label>: ${data.k}` }]. *)
Definition optional_line (data : value) (k : key) (label : string)
    (responseMessage : string) : Result string :=
  x <~ get data k ;;
  if truthy x
  then s <~ ToString x ;; Ok (responseMessage ++ LF ++ label ++ ": " ++ s)
  else Ok responseMessage.

(** The confirmation of the second program of part_001 (lines 287-307). *)
Definition confirmation_schema (financialData : value) : Result string :=
  head <~ recorded_lines financialData ;;
  p <~ get financialData k_payed_at ;;
  date <~ localeDate p ;;
  let responseMessage := head ++ LF ++ "Date: " ++ date in
  data <~ get financialData k_data ;;
  if truthy data
  then m1 <~ optional_line data k_location "Location" responseMessage ;;
       m2 <~ optional_line data k_merchant "Merchant" m1 ;;
       m3 <~ optional_line data k_payment_method "Payment Method" m2 ;;
       optional_line data k_notes "Notes" m3
  else Ok responseMessage.

(** What follows the [insert] call in every version. *)
Definition after_insert (error : option StoreError) (confirmation : Result string)
    (chatId : Z) : M unit :=
  match error with
  | Some err =>
      console "Supabase error:" (LStore err) ;;
      sendMessage chatId REPLY_SAVE_ERROR
  | None =>
      body <- lift confirmation ;;
      sendMessage chatId body
  end.

(** src/index.js lines 71-107, and [processFinancialData] of the first
    program of part_001. *)
Definition processFinancialData_simple (financialData : value) (chatId : Z)
  : M unit :=
  ok <- qualifies financialData ;;
  if ok
  then row <- lift (row_of financialData) ;;
       error <- insert row ;;
       after_insert error (confirmation_simple financialData) chatId
  else sendMessage chatId REPLY_NO_DATA.

(** [if (!financialData.payed_at) financialData.payed_at = new Date().toISOString()]:
    the record as it is after the statement. *)
Definition default_payed_at (financialData : value) : Result value :=
  p <~ get financialData k_payed_at ;;
  if negb (truthy p)
  then set financialData k_payed_at (VStr (Date_now_toISOString E))
  else Ok financialData.

(** [processFinancialData] of the second program of part_001. *)
Definition processFinancialData_schema (financialData : value) (chatId : Z)
  : M unit :=
  ok <- qualifies financialData ;;
  if ok
  then financialData' <- lift (default_payed_at financialData) ;;
       row <- lift (row_of financialData') ;;
       error <- insert row ;;
       after_insert error (confirmation_schema financialData') chatId
  else sendMessage chatId REPLY_NO_DATA.

Definition processFinancialData (v : variant) : value -> Z -> M unit :=
  match v with
  | TextOnly | Photo => processFinancialData_simple
  | Schema => processFinancialData_schema
  end.

(** *** From the message to the raw answer of the model *)

(** [EXTRACTION_PROMPT + "\n\nMessage to analyze: " + msg.text]. *)
Definition text_prompt (v : variant) (msg : Message) : string :=
  EXTRACTION_PROMPT v ++ LF ++ LF ++ "Message to analyze: " ++ opt_str (text msg).

(** [a[a.length - 1]]. *)
Definition last_element {A} (a : list A) : option A :=
  let i := (Z.of_nat (length a) - 1)%Z in
  if (i <? 0)%Z then None else nth_error a (Z.to_nat i).

Definition fileUrl (info : File) : string :=
  "https://api.telegram.org/file/bot" ++ opt_str (TELEGRAM_BOT_TOKEN E)
    ++ "/" ++ opt_str (file_path info).

(** The [if (msg.photo) ... else if (msg.text) ... else ...] of part_001:
    the contents for the model, or [None] when the resend prompt was sent
    and the handler returns. *)
Definition normalize (v : variant) (msg : Message) : M (option Content) :=
  match photo msg with
  | Some variants =>
      id <- lift (match last_element variants with
                  | Some p => Ok (file_id p)
                  | None => Throw (TypeError
                      "Cannot read properties of undefined (reading 'file_id')")
                  end) ;;
      fileInfo <- getFile id ;;
      imageBase64 <- getImageAsBase64 (fileUrl fileInfo) ;;
      ret (Some (WithImage (EXTRACTION_PROMPT v) imageBase64 "image/jpeg"))
  | None =>
      if truthy (match text msg with Some s => VStr s | None => VUndefined end)
      then ret (Some (Text (text_prompt v msg)))
      else sendMessage (chat_id msg) REPLY_RESEND ;; ret None
  end.

(** Everything up to and including the [console.log] of the answer: the raw
    text to parse, or [None] when the handler has returned. *)
Definition request (v : variant) (msg : Message) : M (option (option string)) :=
  match v with
  | TextOnly =>
      t <- model_generate (Text (text_prompt v msg)) ;;
      console "Gemini response:" (LText t) ;;
      ret (Some t)
  | Photo =>
      c <- normalize v msg ;;
      match c with
      | None => ret None
      | Some content =>
          t <- model_generate content ;;
          console "Gemini response:" (LText t) ;;
          ret (Some t)
      end
  | Schema =>
      c <- normalize v msg ;;
      match c with
      | None => ret None
      | Some contents =>
          t <- ai_generate contents ;;
          console "Gemini response:" (LText t) ;;
          ret (Some t)
      end
  end.

(** [try { financialData = JSON.parse(text) } catch (e) { ...; return }]. *)
Definition parse_response (raw : option string) (chat : Z) : M (option value) :=
  match JSON_parse E (opt_str raw) with
  | Ok financialData => ret (Some financialData)
  | Throw e =>
      console "Failed to parse Gemini response:" (LExn e) ;;
      console "Raw response:" (LText raw) ;;
      sendMessage chat REPLY_NOT_UNDERSTOOD ;;
      ret None
  end.

(** The body of the outer [try]. *)
Definition on_message_body (v : variant) (msg : Message) : M unit :=
  r <- request v msg ;;
  match r with
  | None => ret tt
  | Some raw =>
      parsed <- parse_response raw (chat_id msg) ;;
      match parsed with
      | None => ret tt
      | Some financialData => processFinancialData v financialData (chat_id msg)
      end
  end.

(** The outer [catch (error)]. *)
Definition on_error (msg : Message) (error : exn) : M unit :=
  console "Error processing message:" (LExn error) ;;
  sendMessage (chat_id msg) REPLY_GENERIC.

(** [bot.on("message", async (msg) => { try { ... } catch (error) { ... } })].
    [Ok tt] is the handler's promise fulfilled, [Throw e] the promise
    rejected with nobody to handle the rejection. *)
Definition on_message (v : variant) (msg : Message) : M unit :=
  try_catch (on_message_body v msg) (on_error msg).

End Handler.

(* ================================================================= *)
(** ** The record shape of an extraction *)

(** [o.k], [undefined] where the read would throw. *)
Definition field (o : value) (k : key) : value :=
  match get o k with
  | Ok x => x
  | Throw _ => VUndefined
  end.

Definition object_like (v : value) : bool :=
  match v with
  | VObj _ | VArr _ _ => true
  | _ => false
  end.

(** A string, [null], or absent. *)
Definition nullable_string (x : value) : bool :=
  match x with
  | VStr _ | VNull | VUndefined => true
  | _ => false
  end.

(** The shape [FINANCIAL_SCHEMA] and both prompts describe: an object with a
    number or [null] under [value], nullable strings under [description],
    [category] and [payed_at], and under [data] nothing or an object whose
    members are nullable strings. *)
Definition is_ExtractionResult (financialData : value) : bool :=
  match financialData with
  | VObj _ =>
      match field financialData k_value with
      | VNum _ | VNull => true
      | _ => false
      end
      && nullable_string (field financialData k_description)
      && nullable_string (field financialData k_category)
      && nullable_string (field financialData k_payed_at)
      && match field financialData k_data with
         | VNull | VUndefined => true
         | VObj members => forallb (fun m => nullable_string (snd m)) members
         | _ => false
         end
  | _ => false
  end.

(* ================================================================= *)
(** ** Vocabulary for stating what a handling did *)

Section Vocabulary.

Variable E : Env.

(** Whether Telegram accepts a reply. *)
Definition delivered (chat : Z) (body : string) : bool :=
  match bot_sendMessage E chat body with
  | None => true
  | Some _ => false
  end.

(** The replies of a handling whose last statement sends [body]: [body]
    itself and, when Telegram refuses it, the apology of the outer [catch]. *)
Definition replies_ending_with (chat : Z) (body : string) : list (Z * string) :=
  (chat, body) :: (if delivered chat body then [] else [(chat, REPLY_GENERIC)]).

(** The row built from a record. *)
Definition the_row (fd : value) : Row :=
  {| r_value := field fd k_value;
     r_description := field fd k_description;
     r_category := field fd k_category;
     r_payed_at := field fd k_payed_at;
     r_data := field fd k_data |}.

(** What [payed_at] reads as after the defaulting statement. *)
Definition payed_at_after (fd : value) : value :=
  if truthy (field fd k_payed_at) then field fd k_payed_at
  else if object_like fd then VStr (Date_now_toISOString E)
  else VUndefined.

(** The record as it is when the row is built. *)
Definition at_insert (v : variant) (fd : value) : value :=
  match v with
  | Schema => match default_payed_at E fd with
              | Ok fd' => fd'
              | Throw _ => fd
              end
  | _ => fd
  end.

(** The confirmation of a version. *)
Definition confirmation (v : variant) : value -> Result string :=
  match v with
  | Schema => confirmation_schema E
  | _ => confirmation_simple E
  end.

(** The events of the outer [catch]. *)
Definition apology (chat : Z) (e : exn) : list Event :=
  [EvLog "Error processing message:" (LExn e); EvSend chat REPLY_GENERIC].

(** How the handler's promise settles once the outer [catch] runs. *)
Definition after_apology (chat : Z) : Result unit :=
  match bot_sendMessage E chat REPLY_GENERIC with
  | None => Ok tt
  | Some e => Throw e
  end.

(** The events of a last statement that sends [body] inside the [try]. *)
Definition closing (chat : Z) (body : string) : list Event :=
  EvSend chat body ::
  match bot_sendMessage E chat body with
  | None => []
  | Some e => apology chat e
  end.

(** How the promise settles after such a last statement. *)
Definition settled (chat : Z) (body : string) : Result unit :=
  match bot_sendMessage E chat body with
  | None => Ok tt
  | Some _ => after_apology chat
  end.

(** The lines every confirmation starts with. *)
Definition three_lines (sv sd sc : string) : string :=
  HEADER ++ "Amount: $" ++ sv ++ LF
         ++ "Description: " ++ sd ++ LF
         ++ "Category: " ++ sc.

(** The catch-all apology. *)
Definition is_apology (body : string) : bool := String.eqb REPLY_GENERIC body.

(** An event of the [try] body after the model has answered: no download,
    no further request to the model, no apology. *)
Definition late (e : Event) : bool :=
  match e with
  | EvGetFile _ | EvHttpGet _ | EvGenerate _ _ => false
  | EvSend _ body => negb (is_apology body)
  | EvInsert _ | EvLog _ _ => true
  end.

(** Whether the store, holding [db], keeps a row offered to it. *)
Definition accepted (db : list Row) (row : Row) : bool :=
  match supabase_insert E db row with
  | None => true
  | Some _ => false
  end.

(** The message with its text taken away. *)
Definition without_text (msg : Message) : Message :=
  {| chat_id := chat_id msg; text := None; photo := photo msg |}.

(** The line the richer confirmation has for the member [k] of [data]: one
    labelled line for a non-empty string, nothing otherwise. *)
Definition data_line (data : value) (k : key) (label : string) : string :=
  match field data k with
  | VStr s => if String.eqb s EmptyString then EmptyString
              else LF ++ label ++ ": " ++ s
  | _ => EmptyString
  end.

(** A character of a base64 text: a digit of the alphabet, or the padding. *)
Definition b64_char (c : ascii) : bool :=
  existsb (Ascii.eqb c) (list_ascii_of_string b64_alphabet) || Ascii.eqb c "="%char.

(** How a string member that may be [null] or missing prints in a template
    literal. *)
Definition shown (x : value) : string :=
  match x with
  | VStr s => s
  | VNull => "null"
  | _ => "undefined"
  end.

End Vocabulary.

(* ================================================================= *)
(** ** A concrete environment, for running the handlers *)

Module Sample.

(** The answer of the spec's lunch scenario,
    [{"value":25.5,"description":"lunch","category":"food","payed_at":null,"data":{}}]. *)
Definition LUNCH_JSON : string :=
  "{" ++ q "value" ++ ":25.5," ++ q "description" ++ ":" ++ q "lunch" ++ ","
      ++ q "category" ++ ":" ++ q "food" ++ "," ++ q "payed_at" ++ ":null,"
      ++ q "data" ++ ":{}}".

Definition lunch : value :=
  VObj [ ("value", VNum 25.5); ("description", VStr "lunch");
         ("category", VStr "food"); ("payed_at", VNull); ("data", VObj []) ].

Definition nothing_found : value :=
  VObj [ ("value", VNull); ("description", VNull); ("category", VNull);
         ("payed_at", VNull); ("data", VObj []) ].

(** [JSON.parse] on the answers used below; every other text is refused. *)
Definition parse (s : string) : Result value :=
  if String.eqb s LUNCH_JSON then Ok lunch
  else if String.eqb s NULL_OBJECT then Ok nothing_found
  else if String.eqb s "42" then Ok (VNum 42)
  else if String.eqb s "null" then Ok VNull
  else Throw (SyntaxError "Unexpected token").

Definition number (n : float) : string :=
  if PrimFloat.eqb n 25.5 then "25.5"
  else if PrimFloat.eqb n 42 then "42"
  else "0".

(** [new Date(p).toLocaleDateString()] in the locale of the examples. *)
Definition locale_date (p : value) : string :=
  match p with
  | VStr _ => "11/2/2026"
  | VUndefined => "Invalid Date"
  | _ => "1/1/1970"
  end.

Definition NOW : string := "2026-11-02T12:00:00.000Z".

(** A run is fixed by what the model answers and by which services are up. *)
Record Scenario : Type := {
  answer : string;
  store_up : bool;
  telegram_up : bool;
  model_up : bool
}.

Definition env (s : Scenario) : Env :=
  {| JSON_parse := parse;
     Number_toString := number;
     String_trim := fun t => t;
     Date_toLocaleDateString := locale_date;
     Date_now_toISOString := NOW;
     TELEGRAM_BOT_TOKEN := Some "123:abc";
     bot_getFile := fun _ => Ok {| file_path := Some "photos/file_7.jpg" |};
     axios_get := fun _ => Ok [Byte.xff; Byte.xd8; Byte.xff; Byte.xe0];
     model_generateContent := fun _ =>
       if model_up s then Ok (answer s) else Throw (ServiceError "503");
     ai_models_generateContent := fun _ _ =>
       if model_up s then Ok (Some (answer s)) else Throw (ServiceError "503");
     supabase_insert := fun _ _ =>
       if store_up s then None else Some {| message := "permission denied" |};
     bot_sendMessage := fun _ _ =>
       if telegram_up s then None else Some (ServiceError "403 Forbidden") |}.

Definition all_up (a : string) : Scenario :=
  {| answer := a; store_up := true; telegram_up := true; model_up := true |}.

Definition text_message (s : string) : Message :=
  {| chat_id := 7; text := Some s; photo := None |}.

Definition photo_message (sizes : list PhotoSize) : Message :=
  {| chat_id := 7; text := None; photo := Some sizes |}.

Definition empty_message : Message :=
  {| chat_id := 7; text := None; photo := None |}.

End Sample.

(* ================================================================= *)
(** ** Concrete handlings *)

Module Run.

Import Sample.

Definition lunch_env : Env := env (all_up LUNCH_JSON).
Definition quiet_env : Env := env (all_up NULL_OBJECT).
Definition garbled_env : Env := env (all_up "Sure! Here is the JSON you asked for").
Definition number_env : Env := env (all_up "42").
Definition store_down : Env :=
  env {| answer := LUNCH_JSON; store_up := false; telegram_up := true;
         model_up := true |}.
Definition all_down : Env :=
  env {| answer := LUNCH_JSON; store_up := false; telegram_up := false;
         model_up := false |}.
Definition empty_file : Env :=
  {| JSON_parse := parse;
     Number_toString := number;
     String_trim := fun t => t;
     Date_toLocaleDateString := locale_date;
     Date_now_toISOString := NOW;
     TELEGRAM_BOT_TOKEN := Some "123:abc";
     bot_getFile := fun _ => Ok {| file_path := Some "photos/file_7.jpg" |};
     axios_get := fun _ => Ok [];
     model_generateContent := fun _ => Ok NULL_OBJECT;
     ai_models_generateContent := fun _ _ => Ok (Some NULL_OBJECT);
     supabase_insert := fun _ _ => None;
     bot_sendMessage := fun _ _ => None |}.

Definition lunch_message : Message := text_message "Spent $25.50 on lunch today".
Definition hello_message : Message := text_message "hello, how are you?".
Definition small : PhotoSize := {| file_id := "AgAD-small" |}.
Definition large : PhotoSize := {| file_id := "AgAD-large" |}.
Definition receipt_message : Message := photo_message [small; large].
Definition jpeg_file : File := {| file_path := Some "photos/file_7.jpg" |}.

Definition lunch_row : Row :=
  {| r_value := VNum 25.5; r_description := VStr "lunch";
     r_category := VStr "food"; r_payed_at := VStr NOW; r_data := VObj [] |}.

End Run.

(* ================================================================= *)
(** ** More concrete handlings *)

Module More.

Import Sample.

(** Services of which some fail. *)
Definition model_down : Env :=
  env {| answer := LUNCH_JSON; store_up := true; telegram_up := true;
         model_up := false |}.

(** [Run.lunch_env], with a Telegram that resolves files or not and an HTTP
    client that downloads or not. *)
Definition fetching (resolves downloads : bool) : Env :=
  {| JSON_parse := parse;
     Number_toString := number;
     String_trim := fun t => t;
     Date_toLocaleDateString := locale_date;
     Date_now_toISOString := NOW;
     TELEGRAM_BOT_TOKEN := Some "123:abc";
     bot_getFile := fun _ =>
       if resolves then Ok {| file_path := Some "photos/file_7.jpg" |}
       else Throw (ServiceError "400 Bad Request: invalid file_id");
     axios_get := fun _ =>
       if downloads then Ok [Byte.xff; Byte.xd8; Byte.xff; Byte.xe0]
       else Throw (ServiceError "ETIMEDOUT");
     model_generateContent := fun _ => Ok LUNCH_JSON;
     ai_models_generateContent := fun _ _ => Ok (Some LUNCH_JSON);
     supabase_insert := fun _ _ => None;
     bot_sendMessage := fun _ _ => None |}.

(** A record whose description is an object with a member [toString]. *)
Definition unprintable : value :=
  VObj [ ("value", VNum 42);
         ("description", VObj [("toString", VNum 42)]);
         ("category", VStr "food") ].

(** An environment whose [JSON.parse] returns [unprintable]. *)
Definition odd_env : Env :=
  {| JSON_parse := fun _ => Ok unprintable;
     Number_toString := number;
     String_trim := fun t => t;
     Date_toLocaleDateString := locale_date;
     Date_now_toISOString := NOW;
     TELEGRAM_BOT_TOKEN := Some "123:abc";
     bot_getFile := fun _ => Ok {| file_path := Some "photos/file_7.jpg" |};
     axios_get := fun _ => Ok [Byte.xff; Byte.xd8; Byte.xff; Byte.xe0];
     model_generateContent := fun _ => Ok "{}";
     ai_models_generateContent := fun _ _ => Ok (Some "{}");
     supabase_insert := fun _ _ => None;
     bot_sendMessage := fun _ _ => None |}.

(** A receipt with a caption: photo and text at once. *)
Definition captioned : Message :=
  {| chat_id := 7; text := Some "lunch with Ana";
     photo := Some [ {| file_id := "AgAD-small" |};
                     {| file_id := "AgAD-large" |} ] |}.

(** A well-shaped record with every optional member. *)
Definition dinner : value :=
  VObj [ ("value", VNum 42); ("description", VStr "dinner");
         ("category", VStr "food");
         ("payed_at", VStr "2026-11-01T20:30:00.000Z");
         ("data", VObj [ ("location", VStr "Bogota"); ("merchant", VNull);
                         ("payment_method", VStr "card");
                         ("notes", VStr EmptyString) ]) ].

End More.

(* ================================================================= *)
(** ** Facts about strings, traces and records *)

Lemma prefix_app (s t : string) : prefix s (s ++ t) = true.
Proof.
  induction s as [|c s IH]; simpl.
  - now destruct t.
  - destruct (ascii_dec c c) as [_|ne]; [exact IH | now elim ne].
Qed.

Lemma includes_unfold (needle hay : string) :
  includes needle hay =
  if prefix needle hay then true
  else match hay with
       | EmptyString => false
       | String _ rest => includes needle rest
       end.
Proof. now destruct hay. Qed.

Lemma includes_here (s t : string) : includes s (s ++ t) = true.
Proof. rewrite includes_unfold, prefix_app. reflexivity. Qed.

Lemma includes_app (a s b : string) : includes s (a ++ s ++ b) = true.
Proof.
  induction a as [|c a IH].
  - simpl. apply includes_here.
  - rewrite includes_unfold.
    change (String c a ++ s ++ b) with (String c (a ++ s ++ b)).
    destruct (prefix s (String c (a ++ s ++ b))); [reflexivity | exact IH].
Qed.

Lemma append_nil_r (a : string) : a ++ EmptyString = a.
Proof. induction a as [|x a IH]; simpl; [reflexivity | now rewrite IH]. Qed.

Lemma append_assoc (a b c : string) : (a ++ b) ++ c = a ++ b ++ c.
Proof. induction a as [|x a IH]; simpl; [reflexivity | now rewrite IH]. Qed.

Lemma sent_app (a b : list Event) : sent (a ++ b) = (sent a ++ sent b)%list.
Proof. apply flat_map_app. Qed.

Lemma inserts_app (a b : list Event) : inserts (a ++ b) = (inserts a ++ inserts b)%list.
Proof. apply flat_map_app. Qed.

Lemma ai_calls_app (a b : list Event) : ai_calls (a ++ b) = (ai_calls a ++ ai_calls b)%list.
Proof. apply flat_map_app. Qed.

Lemma fetches_app (a b : list Event) : fetches (a ++ b) = (fetches a ++ fetches b)%list.
Proof. apply flat_map_app. Qed.

Lemma count_replies_app (p : string -> bool) (a b : list Event) :
  count_replies p (a ++ b) = count_replies p a + count_replies p b.
Proof.
  unfold count_replies. now rewrite sent_app, filter_app, length_app.
Qed.

Lemma lookup_assign_same (name : string) (v : value) (props : list (string * value)) :
  lookup name (assign name v props) = v.
Proof.
  induction props as [|[n old] rest IH]; simpl.
  - now rewrite String.eqb_refl.
  - destruct (String.eqb n name) eqn:Hn; simpl; rewrite Hn; [reflexivity | exact IH].
Qed.

Lemma lookup_assign_other (name other : string) (v : value)
    (props : list (string * value)) :
  other <> name -> lookup other (assign name v props) = lookup other props.
Proof.
  intros ne. induction props as [|[n old] rest IH]; simpl.
  - destruct (String.eqb name other) eqn:Hn; [|reflexivity].
    apply String.eqb_eq in Hn. now elim ne.
  - destruct (String.eqb n name) eqn:Hn; simpl.
    + apply String.eqb_eq in Hn. subst n.
      destruct (String.eqb name other) eqn:Ho; [|reflexivity].
      apply String.eqb_eq in Ho. now elim ne.
    + now rewrite IH.
Qed.

Example base64_Man : base64 [Byte.x4d; Byte.x61; Byte.x6e] = "TWFu".
Proof. reflexivity. Qed.

Example base64_Ma : base64 [Byte.x4d; Byte.x61] = "TWE=".
Proof. reflexivity. Qed.

Example base64_M : base64 [Byte.x4d] = "TQ==".
Proof. reflexivity. Qed.

(** The encoding of at least one byte is never the empty string. *)
Lemma base64_empty_iff (bytes : list Byte.byte) :
  base64 bytes = EmptyString <-> bytes = [].
Proof.
  split.
  - destruct bytes as [|a [|b [|c rest]]]; simpl; intros H;
      [reflexivity | discriminate H ..].
  - now intros ->.
Qed.

(** Four characters for every started group of three bytes. *)
Lemma base64_length (bytes : list Byte.byte) :
  String.length (base64 bytes) = 4 * ((length bytes + 2) / 3).
Proof.
  enough (G : forall n bs, length bs <= n ->
            String.length (base64 bs) = 4 * ((length bs + 2) / 3))
    by (apply (G (length bytes)); lia).
  induction n as [|n IH]; intros bs Hn.
  - destruct bs; [reflexivity | simpl in Hn; lia].
  - destruct bs as [|a [|b [|c rest]]]; try reflexivity.
    change (base64 (a :: b :: c :: rest)) with
      (String (sextet (N.lor (N.lor (N.shiftl (Byte.to_N a) 16)
                                    (N.shiftl (Byte.to_N b) 8)) (Byte.to_N c)) 18)
        (String (sextet (N.lor (N.lor (N.shiftl (Byte.to_N a) 16)
                                      (N.shiftl (Byte.to_N b) 8)) (Byte.to_N c)) 12)
          (String (sextet (N.lor (N.lor (N.shiftl (Byte.to_N a) 16)
                                        (N.shiftl (Byte.to_N b) 8)) (Byte.to_N c)) 6)
            (String (sextet (N.lor (N.lor (N.shiftl (Byte.to_N a) 16)
                                          (N.shiftl (Byte.to_N b) 8)) (Byte.to_N c)) 0)
              (base64 rest))))).
    cbn [String.length length]. rewrite IH by (simpl in Hn; lia).
    replace (S (S (S (length rest))) + 2) with (length rest + 2 + 1 * 3) by lia.
    rewrite Nat.div_add by lia. lia.
Qed.

(* ================================================================= *)
(** ** What each stage of the handler does *)

(** Unfolds the monad and the calls to the outside. *)
Ltac tidy :=
  cbn [payments events fst snd truthy negb not_null rbind].

Ltac open_monad :=
  unfold on_message, on_message_body, on_error, parse_response, request,
    normalize, model_generate, ai_generate, getImageAsBase64, getFile,
    processFinancialData, processFinancialData_simple,
    processFinancialData_schema, after_insert, qualifies, insert,
    sendMessage, console, try_catch, bind, ret, lift, emit;
  tidy.

(** Splits on the answers of the outside world that the goal waits for. *)
Ltac ask_world :=
  repeat match goal with
         | |- context [match ?x with _ => _ end] =>
             lazymatch x with
             | context [match _ with _ => _ end] => fail
             | _ => destruct x eqn:?
             end; tidy
         end.

(** Brings a trace to the form [events w ++ e1 :: e2 :: ...]. *)
Ltac flatten :=
  cbn [payments events]; rewrite <- ?app_assoc; cbn [app].

Section Stages.

Variable E : Env.

Lemma request_quiet v msg w raw w1 :
  request E v msg w = (Ok (Some raw), w1) ->
  payments w1 = payments w /\
  exists evs c, events w1 = (events w ++ evs)%list /\
    sent evs = [] /\ inserts evs = [] /\ ai_calls evs = [c].
Proof.
  destruct v; open_monad; ask_world.
  all: intros H; inversion H; subst; clear H; tidy.
  all: split; [reflexivity|].
  all: repeat rewrite <- app_assoc; cbn [app].
  all: do 2 eexists; split; [reflexivity|]; repeat split; reflexivity.
Qed.

(** *** Reading a parsed value *)

Lemma get_truthy fd k : truthy fd = true -> get fd k = Ok (field fd k).
Proof. destruct fd; try discriminate; reflexivity. Qed.

Lemma get_field fd k x : get fd k = Ok x -> field fd k = x.
Proof. unfold field. now intros ->. Qed.

Lemma get_null_object_like fd k :
  get fd k = Ok VNull -> object_like fd = true.
Proof. destruct fd; try discriminate; reflexivity. Qed.

Lemma object_like_truthy fd : object_like fd = true -> truthy fd = true.
Proof. destruct fd; try discriminate; reflexivity. Qed.

Lemma row_of_truthy fd : truthy fd = true -> row_of fd = Ok (the_row fd).
Proof.
  intros T. unfold row_of. now rewrite !(get_truthy fd _ T).
Qed.

(** *** The defaulting of [payed_at] *)

Lemma default_payed_at_truthy fd :
  truthy fd = true ->
  exists fd', default_payed_at E fd = Ok fd' /\
    truthy fd' = true /\
    field fd' k_payed_at = payed_at_after E fd /\
    (forall k, k <> k_payed_at -> field fd' k = field fd k) /\
    (forall props, fd = VObj props -> exists props', fd' = VObj props').
Proof.
  intros T. unfold default_payed_at, payed_at_after.
  rewrite (get_truthy fd _ T). cbn [rbind].
  destruct (truthy (field fd k_payed_at)) eqn:P; cbn [negb].
  - exists fd. repeat split; eauto.
  - assert (Other : forall k, k <> k_payed_at -> key_name k <> key_name k_payed_at)
      by (intros [] ne; try discriminate; now elim ne).
    destruct fd; try discriminate T; cbn [set object_like].
    1-3: eexists; repeat split;
         try reflexivity; try assumption; intros; discriminate.
    + eexists. split; [reflexivity|]. unfold field. cbn [get truthy].
      rewrite lookup_assign_same. repeat split; try (intros; discriminate).
      intros k ne. now rewrite lookup_assign_other by auto.
    + eexists. split; [reflexivity|]. unfold field. cbn [get truthy].
      rewrite lookup_assign_same. repeat split.
      * intros k ne. now rewrite lookup_assign_other by auto.
      * intros ? _. eauto.
Qed.

(** *** [processFinancialData] *)

Lemma process_unqualified v fd chat w :
  truthy fd = false \/ get fd k_value = Ok VNull ->
  processFinancialData E v fd chat w = sendMessage E chat REPLY_NO_DATA w.
Proof.
  intros [F|N].
  - destruct v; unfold processFinancialData, processFinancialData_simple,
      processFinancialData_schema, qualifies, bind, ret; now rewrite F.
  - assert (T : truthy fd = true)
      by (apply object_like_truthy, (get_null_object_like fd _ N)).
    destruct v; unfold processFinancialData, processFinancialData_simple,
      processFinancialData_schema, qualifies, bind, ret, lift;
      now rewrite T, N.
Qed.

Lemma process_qualified v fd chat w :
  truthy fd = true -> not_null (field fd k_value) = true ->
  processFinancialData E v fd chat w =
  (error <- insert E (the_row (at_insert E v fd)) ;;
   after_insert E error (confirmation E v (at_insert E v fd)) chat) w.
Proof.
  intros T N.
  destruct v; unfold processFinancialData, processFinancialData_simple,
    processFinancialData_schema, qualifies, at_insert, confirmation;
    rewrite T; unfold bind, lift, ret;
    rewrite (get_truthy fd _ T); cbv beta iota; rewrite N.
  1, 2: rewrite (row_of_truthy fd T); reflexivity.
  destruct (default_payed_at_truthy fd T) as (fd' & D & T' & _).
  rewrite D, (row_of_truthy fd' T'). reflexivity.
Qed.

(** *** The outer [try] / [catch] *)

Lemma sent_closing chat body :
  sent (closing E chat body) = replies_ending_with E chat body.
Proof.
  unfold closing, replies_ending_with, delivered.
  now destruct (bot_sendMessage E chat body).
Qed.

Lemma settled_delivered chat body :
  delivered E chat body = true -> settled E chat body = Ok tt.
Proof. unfold delivered, settled. now destruct (bot_sendMessage E chat body). Qed.

Lemma caught msg e w :
  on_error E msg e w =
  (after_apology E (chat_id msg),
   {| payments := payments w;
      events := (events w ++ apology (chat_id msg) e)%list |}).
Proof.
  unfold on_error, after_apology, apology. open_monad.
  rewrite <- app_assoc. now destruct (bot_sendMessage E (chat_id msg) REPLY_GENERIC).
Qed.

Lemma reply_guarded msg body w :
  try_catch (sendMessage E (chat_id msg) body) (on_error E msg) w =
  (settled E (chat_id msg) body,
   {| payments := payments w;
      events := (events w ++ closing E (chat_id msg) body)%list |}).
Proof.
  unfold try_catch, sendMessage, bind, emit, lift, settled, closing.
  destruct (bot_sendMessage E (chat_id msg) body).
  - rewrite caught. cbn [payments events]. now rewrite <- app_assoc.
  - reflexivity.
Qed.

Lemma on_message_throws v msg w e w1 :
  on_message_body E v msg w = (Throw e, w1) ->
  on_message E v msg w =
  (after_apology E (chat_id msg),
   {| payments := payments w1;
      events := (events w1 ++ apology (chat_id msg) e)%list |}).
Proof.
  intros B. unfold on_message, try_catch. rewrite B. apply caught.
Qed.

Lemma on_message_returns v msg w w1 :
  on_message_body E v msg w = (Ok tt, w1) ->
  on_message E v msg w = (Ok tt, w1).
Proof. intros B. unfold on_message, try_catch. now rewrite B. Qed.

Lemma on_message_parsed v msg w raw w1 fd :
  request E v msg w = (Ok (Some raw), w1) ->
  JSON_parse E (opt_str raw) = Ok fd ->
  on_message E v msg w =
  try_catch (processFinancialData E v fd (chat_id msg)) (on_error E msg) w1.
Proof.
  intros R P.
  unfold on_message, on_message_body, parse_response, try_catch, bind at 1.
  rewrite R, P. reflexivity.
Qed.

Lemma on_message_unparsed v msg w raw w1 e :
  request E v msg w = (Ok (Some raw), w1) ->
  JSON_parse E (opt_str raw) = Throw e ->
  on_message E v msg w =
  (settled E (chat_id msg) REPLY_NOT_UNDERSTOOD,
   {| payments := payments w1;
      events := (events w1
                 ++ [EvLog "Failed to parse Gemini response:" (LExn e);
                     EvLog "Raw response:" (LText raw)]
                 ++ closing E (chat_id msg) REPLY_NOT_UNDERSTOOD)%list |}).
Proof.
  intros R P.
  unfold on_message, on_message_body, parse_response, try_catch, bind at 1.
  rewrite R, P. clear R P. unfold settled, after_apology, closing, apology.
  open_monad. destruct (bot_sendMessage E (chat_id msg) REPLY_NOT_UNDERSTOOD).
  - destruct (bot_sendMessage E (chat_id msg) REPLY_GENERIC); now flatten.
  - now flatten.
Qed.

Lemma handled_unqualified v msg fd w :
  truthy fd = false \/ get fd k_value = Ok VNull ->
  try_catch (processFinancialData E v fd (chat_id msg)) (on_error E msg) w =
  (settled E (chat_id msg) REPLY_NO_DATA,
   {| payments := payments w;
      events := (events w ++ closing E (chat_id msg) REPLY_NO_DATA)%list |}).
Proof.
  intros U. rewrite <- reply_guarded. unfold try_catch.
  now rewrite (process_unqualified v fd _ w U).
Qed.

Lemma handled_qualified v msg fd w :
  truthy fd = true -> not_null (field fd k_value) = true ->
  let chat := chat_id msg in
  let row := the_row (at_insert E v fd) in
  try_catch (processFinancialData E v fd chat) (on_error E msg) w =
  match supabase_insert E (payments w) row with
  | Some err =>
      (settled E chat REPLY_SAVE_ERROR,
       {| payments := payments w;
          events := (events w
                     ++ [EvInsert row; EvLog "Supabase error:" (LStore err)]
                     ++ closing E chat REPLY_SAVE_ERROR)%list |})
  | None =>
      match confirmation E v (at_insert E v fd) with
      | Ok body =>
          (settled E chat body,
           {| payments := (payments w ++ [row])%list;
              events := (events w ++ [EvInsert row] ++ closing E chat body)%list |})
      | Throw e =>
          (after_apology E chat,
           {| payments := (payments w ++ [row])%list;
              events := (events w ++ [EvInsert row] ++ apology chat e)%list |})
      end
  end.
Proof.
  intros T N chat row. unfold try_catch.
  rewrite (process_qualified v fd chat w T N). fold row.
  unfold settled, after_apology, closing, apology. subst chat. open_monad.
  destruct (supabase_insert E (payments w) row) as [err|]; tidy.
  - destruct (bot_sendMessage E (chat_id msg) REPLY_SAVE_ERROR); tidy;
      [destruct (bot_sendMessage E (chat_id msg) REPLY_GENERIC)|]; now flatten.
  - destruct (confirmation E v (at_insert E v fd)) as [body|e]; tidy.
    + destruct (bot_sendMessage E (chat_id msg) body); tidy;
        [destruct (bot_sendMessage E (chat_id msg) REPLY_GENERIC)|]; now flatten.
    + destruct (bot_sendMessage E (chat_id msg) REPLY_GENERIC); now flatten.
Qed.

(** *** The confirmation of a well-shaped record *)

Lemma ToString_nullable x :
  nullable_string x = true -> exists s, ToString E x = Ok s.
Proof. destruct x; try discriminate; intros _; eexists; reflexivity. Qed.

Lemma localeDate_nullable x :
  nullable_string x = true -> exists s, localeDate E x = Ok s.
Proof. destruct x; try discriminate; intros _; eexists; reflexivity. Qed.

Lemma lookup_nullable name members :
  forallb (fun m => nullable_string (snd m)) members = true ->
  nullable_string (lookup name members) = true.
Proof.
  induction members as [|[n x] rest IH]; cbn [forallb lookup snd].
  - reflexivity.
  - intros H. apply andb_prop in H as [Hx Hrest].
    destruct (String.eqb n name); auto.
Qed.

Lemma optional_line_typed members k label m :
  forallb (fun m => nullable_string (snd m)) members = true ->
  exists extra, optional_line E (VObj members) k label m = Ok (m ++ extra).
Proof.
  intros H. unfold optional_line. cbn [get rbind].
  pose proof (lookup_nullable (key_name k) members H) as Hx.
  destruct (lookup (key_name k) members); try discriminate; cbn [truthy].
  - exists EmptyString. now rewrite append_nil_r.
  - exists EmptyString. now rewrite append_nil_r.
  - destruct (negb (String.eqb s EmptyString)); cbn [ToString rbind].
    + eexists. reflexivity.
    + exists EmptyString. now rewrite append_nil_r.
Qed.

Lemma typed_object fd :
  is_ExtractionResult fd = true -> exists props, fd = VObj props.
Proof. destruct fd; try discriminate. eauto. Qed.

Lemma typed_truthy fd : is_ExtractionResult fd = true -> truthy fd = true.
Proof. destruct fd; try discriminate. reflexivity. Qed.

Lemma confirmation_typed v fd :
  is_ExtractionResult fd = true ->
  exists sv sd sc tail,
    ToString E (field fd k_value) = Ok sv /\
    ToString E (field fd k_description) = Ok sd /\
    ToString E (field fd k_category) = Ok sc /\
    confirmation E v fd = Ok (three_lines sv sd sc ++ tail).
Proof.
  intros Ty. pose proof (typed_truthy fd Ty) as T.
  destruct (typed_object fd Ty) as [props ->].
  unfold is_ExtractionResult in Ty.
  apply andb_prop in Ty as [Ty Hdata].
  apply andb_prop in Ty as [Ty Hpayed].
  apply andb_prop in Ty as [Ty Hcat].
  apply andb_prop in Ty as [Hval Hdesc].
  assert (exists sv, ToString E (field (VObj props) k_value) = Ok sv) as [sv Sv]
    by (destruct (field (VObj props) k_value); try discriminate;
        eexists; reflexivity).
  destruct (ToString_nullable _ Hdesc) as [sd Sd].
  destruct (ToString_nullable _ Hcat) as [sc Sc].
  exists sv, sd, sc.
  assert (Head : recorded_lines E (VObj props) = Ok (three_lines sv sd sc)).
  { unfold recorded_lines. rewrite !(get_truthy _ _ T). cbn [rbind].
    rewrite Sv. cbn [rbind]. rewrite Sd. cbn [rbind]. rewrite Sc. reflexivity. }
  destruct v; unfold confirmation.
  1, 2: unfold confirmation_simple; rewrite Head, (get_truthy _ _ T);
        cbn [rbind];
        destruct (truthy (field (VObj props) k_payed_at));
        [ destruct (localeDate_nullable _ Hpayed) as [d ->]; cbn [rbind]
        | cbn [rbind] ];
        eexists; repeat split; eauto.
  unfold confirmation_schema. rewrite Head, !(get_truthy _ _ T). cbn [rbind].
  destruct (localeDate_nullable _ Hpayed) as [d ->]. cbn [rbind].
  set (m0 := three_lines sv sd sc ++ LF ++ "Date: " ++ d).
  destruct (field (VObj props) k_data) as [| | | | | |members];
    try discriminate; cbn [truthy].
  1, 2: exists (LF ++ "Date: " ++ d); repeat split; auto.
  destruct (optional_line_typed members k_location "Location" m0 Hdata) as [e1 ->].
  cbn [rbind].
  destruct (optional_line_typed members k_merchant "Merchant" (m0 ++ e1) Hdata)
    as [e2 ->].
  cbn [rbind].
  destruct (optional_line_typed members k_payment_method "Payment Method"
              ((m0 ++ e1) ++ e2) Hdata) as [e3 ->].
  cbn [rbind].
  destruct (optional_line_typed members k_notes "Notes"
              (((m0 ++ e1) ++ e2) ++ e3) Hdata) as [e4 ->].
  exists ((LF ++ "Date: " ++ d) ++ e1 ++ e2 ++ e3 ++ e4).
  repeat split; auto. subst m0. now rewrite !append_assoc.
Qed.

(** The defaulting keeps a well-shaped record well-shaped. *)
Lemma at_insert_typed v fd :
  is_ExtractionResult fd = true ->
  is_ExtractionResult (at_insert E v fd) = true /\
  truthy (at_insert E v fd) = true /\
  (forall k, k <> k_payed_at -> field (at_insert E v fd) k = field fd k) /\
  field (at_insert E v fd) k_payed_at =
    match v with
    | Schema => if truthy (field fd k_payed_at) then field fd k_payed_at
                else VStr (Date_now_toISOString E)
    | _ => field fd k_payed_at
    end.
Proof.
  intros Ty. pose proof (typed_truthy fd Ty) as T.
  destruct v; cbn [at_insert]; try (repeat split; auto; fail).
  destruct (default_payed_at_truthy fd T) as (fd' & -> & T' & P & Same & Obj).
  destruct (typed_object fd Ty) as [props Eq].
  destruct (Obj props Eq) as [props' ->].
  repeat split; auto.
  - unfold is_ExtractionResult.
    rewrite (Same k_value), (Same k_description), (Same k_category),
      (Same k_data), P by discriminate.
    subst fd. unfold is_ExtractionResult in Ty.
    apply andb_prop in Ty as [Ty Hdata].
    apply andb_prop in Ty as [Ty Hpayed].
    rewrite Ty, Hdata. cbn [andb]. rewrite andb_true_r.
    unfold payed_at_after. cbn [object_like].
    destruct (truthy (field (VObj props) k_payed_at)); auto.
  - rewrite P. unfold payed_at_after. subst fd. reflexivity.
Qed.

(** *** A handling that reached [JSON.parse] *)

Lemma reached_parse v msg db raw :
  fst (request E v msg (start db)) = Ok (Some raw) ->
  exists w1 c,
    request E v msg (start db) = (Ok (Some raw), w1) /\
    payments w1 = db /\ sent (events w1) = [] /\
    inserts (events w1) = [] /\ ai_calls (events w1) = [c].
Proof.
  destruct (request E v msg (start db)) as [r w1] eqn:R. cbn [fst].
  intros ->. destruct (request_quiet v msg _ raw w1 R)
    as (Pay & evs & c & Ev & S & I & A).
  exists w1, c. cbn [start payments events app] in *. subst evs. auto.
Qed.

Lemma count_one_reply (p : string -> bool) chat body :
  p body = true -> p REPLY_GENERIC = false ->
  length (filter (fun cb => p (snd cb)) (replies_ending_with E chat body)) = 1.
Proof.
  intros Hb Hg. unfold replies_ending_with.
  destruct (delivered E chat body); cbn [filter snd]; rewrite Hb, ?Hg; reflexivity.
Qed.

Lemma count_no_reply (p : string -> bool) chat body :
  p body = false -> p REPLY_GENERIC = false ->
  length (filter (fun cb => p (snd cb)) (replies_ending_with E chat body)) = 0.
Proof.
  intros Hb Hg. unfold replies_ending_with.
  destruct (delivered E chat body); cbn [filter snd]; rewrite Hb, ?Hg; reflexivity.
Qed.

(** *** What can happen after the request *)

Lemma late_quiet evs :
  forallb late evs = true ->
  ai_calls evs = [] /\ fetches evs = [] /\ count_replies is_apology evs = 0.
Proof.
  induction evs as [|e rest IH]; cbn [forallb]; [now repeat split|].
  intros H. apply andb_prop in H as [He Hrest].
  destruct (IH Hrest) as (A & F & C).
  destruct e; try discriminate He; cbn [late] in He;
    unfold ai_calls, fetches, count_replies, sent in *; cbn [flat_map app filter];
    repeat split; auto.
  cbn [filter snd length].
  now destruct (is_apology body).
Qed.

Lemma request_trace v msg w :
  payments (snd (request E v msg w)) = payments w /\
  exists evs,
    events (snd (request E v msg w)) = (events w ++ evs)%list /\
    inserts evs = [] /\ count_replies is_apology evs = 0 /\
    length (ai_calls evs) <= 1.
Proof.
  destruct v; open_monad; ask_world; flatten.
  all: split; [reflexivity|].
  all: first [ eexists; split; [reflexivity|]
             | exists []; split; [now rewrite app_nil_r|] ].
  all: repeat split; try reflexivity; cbn; lia.
Qed.

Lemma Ok_inj {A} (a b : A) : Ok a = Ok b -> a = b.
Proof. now intros [=]. Qed.

Lemma recorded_lines_header fd head :
  recorded_lines E fd = Ok head -> exists rest, head = HEADER ++ rest.
Proof.
  unfold recorded_lines.
  destruct (get fd k_value) as [x|]; cbn [rbind]; try discriminate.
  destruct (ToString E x); cbn [rbind]; try discriminate.
  destruct (get fd k_description) as [y|]; cbn [rbind]; try discriminate.
  destruct (ToString E y); cbn [rbind]; try discriminate.
  destruct (get fd k_category) as [z|]; cbn [rbind]; try discriminate.
  destruct (ToString E z); cbn [rbind]; try discriminate.
  intros Eq; apply Ok_inj in Eq; subst. eexists; reflexivity.
Qed.

Lemma optional_line_extends data k label m m' :
  optional_line E data k label m = Ok m' -> exists extra, m' = m ++ extra.
Proof.
  unfold optional_line.
  destruct (get data k) as [x|]; cbn [rbind]; try discriminate.
  destruct (truthy x).
  - destruct (ToString E x); cbn [rbind]; try discriminate.
    intros Eq; apply Ok_inj in Eq; subst. eexists; reflexivity.
  - intros Eq; apply Ok_inj in Eq; subst. exists EmptyString.
    now rewrite append_nil_r.
Qed.

(** Every confirmation starts with the header line. *)
Lemma confirmation_header v fd body :
  confirmation E v fd = Ok body -> exists rest, body = HEADER ++ rest.
Proof.
  assert (Simple : confirmation_simple E fd = Ok body ->
                   exists rest, body = HEADER ++ rest).
  { unfold confirmation_simple.
    destruct (recorded_lines E fd) as [head|] eqn:H; cbn [rbind]; try discriminate.
    destruct (recorded_lines_header fd head H) as [r ->].
    destruct (get fd k_payed_at) as [p|]; cbn [rbind]; try discriminate.
    destruct (if truthy p then _ else _); cbn [rbind]; try discriminate.
    intros Eq; apply Ok_inj in Eq; subst. rewrite append_assoc. eexists; reflexivity. }
  destruct v; cbn [confirmation]; auto.
  unfold confirmation_schema.
  destruct (recorded_lines E fd) as [head|] eqn:H; cbn [rbind]; try discriminate.
  destruct (recorded_lines_header fd head H) as [r ->].
  destruct (get fd k_payed_at) as [p|]; cbn [rbind]; try discriminate.
  destruct (localeDate E p) as [d|]; cbn [rbind]; try discriminate.
  destruct (get fd k_data) as [data|]; cbn [rbind]; try discriminate.
  destruct (truthy data).
  - destruct (optional_line E data k_location _ _) as [m1|] eqn:L1;
      cbn [rbind]; try discriminate.
    destruct (optional_line E data k_merchant _ _) as [m2|] eqn:L2;
      cbn [rbind]; try discriminate.
    destruct (optional_line E data k_payment_method _ _) as [m3|] eqn:L3;
      cbn [rbind]; try discriminate.
    intros L4.
    apply optional_line_extends in L1 as [e1 ->].
    apply optional_line_extends in L2 as [e2 ->].
    apply optional_line_extends in L3 as [e3 ->].
    apply optional_line_extends in L4 as [e4 ->].
    rewrite !append_assoc. eexists; reflexivity.
  - intros Eq; apply Ok_inj in Eq; subst. rewrite append_assoc. eexists; reflexivity.
Qed.

Lemma header_is_not_apology rest : is_apology (HEADER ++ rest) = false.
Proof. reflexivity. Qed.

Lemma header_is_recorded rest : includes RECORDED (HEADER ++ rest) = true.
Proof. unfold HEADER. rewrite append_assoc. apply includes_here. Qed.

(** [processFinancialData] appends late events only. *)
Lemma process_trace v fd chat w :
  exists evs,
    events (snd (processFinancialData E v fd chat w)) = (events w ++ evs)%list /\
    forallb late evs = true.
Proof.
  destruct (truthy fd) eqn:T;
    [destruct (not_null (field fd k_value)) eqn:N|].
  - rewrite (process_qualified v fd chat w T N).
    pose proof (confirmation_header v (at_insert E v fd)) as Hd.
    open_monad.
    destruct (supabase_insert E (payments w) _); tidy.
    + destruct (bot_sendMessage E chat REPLY_SAVE_ERROR); flatten;
        eexists; split; reflexivity.
    + destruct (confirmation E v (at_insert E v fd)) as [body|]; tidy.
      * destruct (Hd body eq_refl) as [rest ->].
        destruct (bot_sendMessage E chat (HEADER ++ rest)); flatten;
          eexists; (split; [reflexivity|]); cbn [forallb late];
          now rewrite header_is_not_apology.
      * eexists; split; reflexivity.
  - assert (G : get fd k_value = Ok VNull).
    { rewrite (get_truthy fd _ T). destruct (field fd k_value);
        try discriminate; reflexivity. }
    rewrite (process_unqualified v fd chat w (or_intror G)). open_monad.
    destruct (bot_sendMessage E chat REPLY_NO_DATA);
      eexists; split; reflexivity.
  - rewrite (process_unqualified v fd chat w (or_introl T)). open_monad.
    destruct (bot_sendMessage E chat REPLY_NO_DATA);
      eexists; split; reflexivity.
Qed.

(** The [try] body appends late events only, once the request is over. *)
Lemma body_trace v msg w :
  exists evs,
    events (snd (on_message_body E v msg w))
    = (events (snd (request E v msg w)) ++ evs)%list /\
    forallb late evs = true.
Proof.
  unfold on_message_body, bind at 1.
  destruct (request E v msg w) as [[[raw|]|e] w1]; cbn [snd].
  - unfold parse_response.
    destruct (JSON_parse E (opt_str raw)) as [fd|].
    + unfold bind, ret. apply process_trace.
    + open_monad.
      destruct (bot_sendMessage E (chat_id msg) REPLY_NOT_UNDERSTOOD);
        flatten; eexists; split; reflexivity.
  - exists []. now rewrite app_nil_r.
  - exists []. now rewrite app_nil_r.
Qed.

(** *** Which handlings offer a row to the store *)

Lemma request_keeps_store v msg db r w1 :
  request E v msg (start db) = (r, w1) ->
  payments w1 = db /\ inserts (events w1) = [] /\ length (ai_calls (events w1)) <= 1.
Proof.
  intros R. destruct (request_trace v msg (start db)) as (Pay & evs & Ev & I & _ & A).
  rewrite R in *. cbn [snd start payments events app] in *. subst evs. auto.
Qed.

Lemma inserts_closing chat body : inserts (closing E chat body) = [].
Proof. unfold closing, apology. now destruct (bot_sendMessage E chat body). Qed.

Lemma ai_calls_closing chat body : ai_calls (closing E chat body) = [].
Proof. unfold closing, apology. now destruct (bot_sendMessage E chat body). Qed.

(** A handling that offers a row to the store has parsed a truthy value
    whose [value] is not [null]. *)
Lemma insert_only_if_qualified v msg db :
  inserts (events (snd (on_message E v msg (start db)))) = [] \/
  exists raw fd,
    fst (request E v msg (start db)) = Ok (Some raw) /\
    JSON_parse E (opt_str raw) = Ok fd /\
    truthy fd = true /\ not_null (field fd k_value) = true.
Proof.
  destruct (request E v msg (start db)) as [r w1] eqn:R.
  destruct (request_keeps_store v msg db r w1 R) as (Pay & I & _).
  destruct r as [[raw|]|e].
  - destruct (JSON_parse E (opt_str raw)) as [fd|] eqn:P.
    + destruct (truthy fd) eqn:T;
        [destruct (not_null (field fd k_value)) eqn:N|].
      * right. exists raw, fd. auto.
      * left. rewrite (on_message_parsed v msg _ raw w1 fd R P).
        rewrite handled_unqualified; cbn [snd events].
        -- now rewrite inserts_app, I, inserts_closing.
        -- right. rewrite (get_truthy fd _ T).
           destruct (field fd k_value); try discriminate; reflexivity.
      * left. rewrite (on_message_parsed v msg _ raw w1 fd R P).
        rewrite handled_unqualified by now left. cbn [snd events].
        now rewrite inserts_app, I, inserts_closing.
    + left. rewrite (on_message_unparsed v msg _ raw w1 _ R P). cbn [snd events].
      now rewrite !inserts_app, I, inserts_closing.
  - left. rewrite (on_message_returns v msg _ w1); [exact I|].
    unfold on_message_body, bind at 1. now rewrite R.
  - left. rewrite (on_message_throws v msg _ e w1).
    + cbn [snd events]. now rewrite inserts_app, I.
    + unfold on_message_body, bind at 1. now rewrite R.
Qed.

Lemma three_lines_include sv sd sc tail :
  includes sv (three_lines sv sd sc ++ tail) = true /\
  includes sd (three_lines sv sd sc ++ tail) = true /\
  includes sc (three_lines sv sd sc ++ tail) = true.
Proof.
  unfold three_lines. repeat split.
  - replace ((HEADER ++ "Amount: $" ++ sv ++ LF ++ "Description: " ++ sd ++ LF
                     ++ "Category: " ++ sc) ++ tail)
      with ((HEADER ++ "Amount: $") ++ sv
            ++ (LF ++ "Description: " ++ sd ++ LF ++ "Category: " ++ sc ++ tail))
      by (now rewrite !append_assoc).
    apply includes_app.
  - replace ((HEADER ++ "Amount: $" ++ sv ++ LF ++ "Description: " ++ sd ++ LF
                     ++ "Category: " ++ sc) ++ tail)
      with ((HEADER ++ "Amount: $" ++ sv ++ LF ++ "Description: ") ++ sd
            ++ (LF ++ "Category: " ++ sc ++ tail))
      by (now rewrite !append_assoc).
    apply includes_app.
  - replace ((HEADER ++ "Amount: $" ++ sv ++ LF ++ "Description: " ++ sd ++ LF
                     ++ "Category: " ++ sc) ++ tail)
      with ((HEADER ++ "Amount: $" ++ sv ++ LF ++ "Description: " ++ sd ++ LF
                    ++ "Category: ") ++ sc ++ tail)
      by (now rewrite !append_assoc).
    apply includes_app.
Qed.

(** *** The whole handling, after the request *)

Lemma on_message_trace v msg w :
  exists evs,
    events (snd (on_message E v msg w))
    = (events (snd (request E v msg w)) ++ evs)%list /\
    ai_calls evs = [] /\ fetches evs = [].
Proof.
  destruct (body_trace v msg w) as (evs & Ev & L).
  destruct (late_quiet evs L) as (A & F & _).
  destruct (on_message_body E v msg w) as [[[]|e] w1] eqn:B; cbn [snd] in Ev.
  - rewrite (on_message_returns v msg w w1 B). cbn [snd]. eauto.
  - rewrite (on_message_throws v msg w e w1 B). cbn [snd events].
    exists (evs ++ apology (chat_id msg) e)%list.
    rewrite Ev, <- app_assoc, ai_calls_app, fetches_app, A, F. auto.
Qed.

Lemma last_element_snoc {A} (front : list A) (x : A) :
  last_element (front ++ [x]) = Some x.
Proof.
  unfold last_element. rewrite length_app. cbn [length].
  replace (Z.of_nat (length front + 1) - 1)%Z with (Z.of_nat (length front)) by lia.
  destruct (Z.ltb_spec (Z.of_nat (length front)) 0); [lia|].
  rewrite Nat2Z.id, nth_error_app2, Nat.sub_diag by lia. reflexivity.
Qed.

Lemma field_of_primitive fd k : object_like fd = false -> field fd k = VUndefined.
Proof. destruct fd; try discriminate; reflexivity. Qed.

(** *** Every handling, by cases *)

(** The handling as a function of what the request stage, [JSON.parse] and
    the store answer. *)
Lemma on_message_cases v msg w :
  on_message E v msg w =
  match fst (request E v msg w) with
  | Throw e =>
      (after_apology E (chat_id msg),
       {| payments := payments (snd (request E v msg w));
          events := (events (snd (request E v msg w))
                     ++ apology (chat_id msg) e)%list |})
  | Ok None => (Ok tt, snd (request E v msg w))
  | Ok (Some raw) =>
      match JSON_parse E (opt_str raw) with
      | Throw e =>
          (settled E (chat_id msg) REPLY_NOT_UNDERSTOOD,
           {| payments := payments (snd (request E v msg w));
              events := (events (snd (request E v msg w))
                         ++ [EvLog "Failed to parse Gemini response:" (LExn e);
                             EvLog "Raw response:" (LText raw)]
                         ++ closing E (chat_id msg) REPLY_NOT_UNDERSTOOD)%list |})
      | Ok fd =>
          if truthy fd && not_null (field fd k_value)
          then try_catch (processFinancialData E v fd (chat_id msg))
                         (on_error E msg) (snd (request E v msg w))
          else (settled E (chat_id msg) REPLY_NO_DATA,
                {| payments := payments (snd (request E v msg w));
                   events := (events (snd (request E v msg w))
                              ++ closing E (chat_id msg) REPLY_NO_DATA)%list |})
      end
  end.
Proof.
  destruct (request E v msg w) as [r w1] eqn:R. cbn [fst snd].
  destruct r as [[raw|]|e].
  - destruct (JSON_parse E (opt_str raw)) as [fd|e] eqn:P.
    + rewrite (on_message_parsed v msg w raw w1 fd R P).
      destruct (truthy fd) eqn:T; cbn [andb];
        [destruct (not_null (field fd k_value)) eqn:N|].
      * reflexivity.
      * apply handled_unqualified. right. rewrite (get_truthy fd _ T).
        destruct (field fd k_value); try discriminate; reflexivity.
      * apply handled_unqualified. now left.
    + apply (on_message_unparsed v msg w raw w1 e R P).
  - apply on_message_returns. unfold on_message_body, bind at 1. now rewrite R.
  - apply on_message_throws. unfold on_message_body, bind at 1. now rewrite R.
Qed.

(** What the request stage leaves behind, by outcome. *)
Lemma request_facts v msg db :
  payments (snd (request E v msg (start db))) = db /\
  inserts (events (snd (request E v msg (start db)))) = [] /\
  match fst (request E v msg (start db)) with
  | Ok (Some _) =>
      sent (events (snd (request E v msg (start db)))) = [] /\
      length (ai_calls (events (snd (request E v msg (start db))))) = 1
  | Ok None =>
      sent (events (snd (request E v msg (start db))))
      = [(chat_id msg, REPLY_RESEND)] /\
      bot_sendMessage E (chat_id msg) REPLY_RESEND = None /\
      ai_calls (events (snd (request E v msg (start db)))) = []
  | Throw e =>
      (sent (events (snd (request E v msg (start db)))) = [] /\
       length (ai_calls (events (snd (request E v msg (start db))))) <= 1) \/
      (sent (events (snd (request E v msg (start db))))
       = [(chat_id msg, REPLY_RESEND)] /\
       bot_sendMessage E (chat_id msg) REPLY_RESEND = Some e /\
       ai_calls (events (snd (request E v msg (start db)))) = [])
  end.
Proof.
  destruct v; open_monad; ask_world; cbn [start payments events app].
  all: repeat split; try reflexivity; try assumption.
  all: try (left; split; [reflexivity | cbn; lia]).
  all: right; repeat split; assumption.
Qed.


(** What every handling leaves behind, by cases: the table, the rows
    offered, the replies and how the promise settles. *)
Lemma run_summary v msg db :
  let chat := chat_id msg in
  let ran := on_message E v msg (start db) in
  match fst (request E v msg (start db)) with
  | Throw e =>
      payments (snd ran) = db /\ inserts (events (snd ran)) = [] /\
      sent (events (snd ran))
      = (sent (events (snd (request E v msg (start db))))
         ++ [(chat, REPLY_GENERIC)])%list /\
      fst ran = after_apology E chat
  | Ok None =>
      payments (snd ran) = db /\ inserts (events (snd ran)) = [] /\
      sent (events (snd ran)) = [(chat, REPLY_RESEND)] /\
      ran = (Ok tt, snd (request E v msg (start db)))
  | Ok (Some raw) =>
      match JSON_parse E (opt_str raw) with
      | Throw _ =>
          payments (snd ran) = db /\ inserts (events (snd ran)) = [] /\
          sent (events (snd ran)) = replies_ending_with E chat REPLY_NOT_UNDERSTOOD /\
          fst ran = settled E chat REPLY_NOT_UNDERSTOOD
      | Ok fd =>
          if truthy fd && not_null (field fd k_value)
          then inserts (events (snd ran)) = [the_row (at_insert E v fd)] /\
               match supabase_insert E db (the_row (at_insert E v fd)) with
               | Some _ =>
                   payments (snd ran) = db /\
                   sent (events (snd ran)) = replies_ending_with E chat REPLY_SAVE_ERROR /\
                   fst ran = settled E chat REPLY_SAVE_ERROR
               | None =>
                   payments (snd ran) = (db ++ [the_row (at_insert E v fd)])%list /\
                   match confirmation E v (at_insert E v fd) with
                   | Ok body =>
                       sent (events (snd ran)) = replies_ending_with E chat body /\
                       fst ran = settled E chat body
                   | Throw _ =>
                       sent (events (snd ran)) = [(chat, REPLY_GENERIC)] /\
                       fst ran = after_apology E chat
                   end
               end
          else payments (snd ran) = db /\ inserts (events (snd ran)) = [] /\
               sent (events (snd ran)) = replies_ending_with E chat REPLY_NO_DATA /\
               fst ran = settled E chat REPLY_NO_DATA
      end
  end.
Proof.
  intros chat ran. subst ran chat. rewrite on_message_cases.
  destruct (request_facts v msg db) as (Pay & I & Facts).
  destruct (fst (request E v msg (start db))) as [[raw|]|e].
  - destruct Facts as (S & _).
    destruct (JSON_parse E (opt_str raw)) as [fd|e].
    + destruct (truthy fd) eqn:T; cbn [andb];
        [destruct (not_null (field fd k_value)) eqn:N|].
      * rewrite (handled_qualified v msg fd _ T N). rewrite Pay.
        destruct (supabase_insert E db (the_row (at_insert E v fd)));
          [|destruct (confirmation E v (at_insert E v fd))];
          cbn [fst snd payments events];
          rewrite !inserts_app, !sent_app, I, S, ?inserts_closing, ?sent_closing;
          repeat split.
      * cbn [fst snd payments events].
        now rewrite inserts_app, sent_app, I, S, inserts_closing, sent_closing.
      * cbn [fst snd payments events].
        now rewrite inserts_app, sent_app, I, S, inserts_closing, sent_closing.
    + cbn [fst snd payments events].
      now rewrite !inserts_app, !sent_app, I, S, inserts_closing, sent_closing.
  - destruct Facts as (S & _). cbn [fst snd]. auto.
  - cbn [fst snd payments events]. rewrite inserts_app, sent_app, I. auto.
Qed.

(** *** More on records, confirmations and base64 *)

Lemma at_insert_fields v fd :
  truthy fd = true ->
  truthy (at_insert E v fd) = true /\
  forall k, k <> k_payed_at -> field (at_insert E v fd) k = field fd k.
Proof.
  intros T. destruct v; cbn [at_insert]; auto.
  destruct (default_payed_at_truthy fd T) as (fd' & -> & T' & _ & Same & _).
  auto.
Qed.

Lemma confirmation_needs_lines v fd e :
  recorded_lines E fd = Throw e -> confirmation E v fd = Throw e.
Proof.
  intros L. destruct v; cbn [confirmation];
    unfold confirmation_simple, confirmation_schema; now rewrite L.
Qed.

Lemma shown_nullable x : nullable_string x = true -> ToString E x = Ok (shown x).
Proof. destruct x; try discriminate; reflexivity. Qed.

Lemma localeDate_of_nullable x :
  nullable_string x = true -> localeDate E x = Ok (Date_toLocaleDateString E x).
Proof. destruct x; try discriminate; reflexivity. Qed.

Lemma optional_line_closed members k label m :
  forallb (fun m => nullable_string (snd m)) members = true ->
  optional_line E (VObj members) k label m
  = Ok (m ++ data_line (VObj members) k label).
Proof.
  intros H. unfold optional_line, data_line, field. cbn [get rbind].
  pose proof (lookup_nullable (key_name k) members H) as Hx.
  destruct (lookup (key_name k) members); try discriminate; cbn [truthy].
  1, 2: now rewrite append_nil_r.
  destruct (String.eqb s EmptyString); cbn [negb ToString rbind].
  - now rewrite append_nil_r.
  - reflexivity.
Qed.

Lemma get_is_in_string k s c :
  String.get k s = Some c ->
  existsb (Ascii.eqb c) (list_ascii_of_string s) = true.
Proof.
  revert k. induction s as [|x s IH]; intros k; [destruct k; discriminate|].
  destruct k as [|k]; cbn [String.get list_ascii_of_string existsb].
  - intros [= ->]. now rewrite Ascii.eqb_refl.
  - intros G. rewrite (IH k G). apply orb_true_r.
Qed.

Lemma sextet_is_b64_char word shift : b64_char (sextet word shift) = true.
Proof.
  unfold sextet, b64_digit, b64_char.
  destruct (String.get _ b64_alphabet) as [c|] eqn:G.
  - now rewrite (get_is_in_string _ _ _ G).
  - reflexivity.
Qed.

Lemma base64_chars (bytes : list Byte.byte) :
  forallb b64_char (list_ascii_of_string (base64 bytes)) = true.
Proof.
  enough (G : forall n bs, length bs <= n ->
            forallb b64_char (list_ascii_of_string (base64 bs)) = true)
    by (apply (G (length bytes)); lia).
  induction n as [|n IH]; intros bs Hn.
  - destruct bs; [reflexivity | simpl in Hn; lia].
  - destruct bs as [|a [|b [|c rest]]]; [reflexivity| | |].
    + cbn [base64 list_ascii_of_string forallb].
      now rewrite !sextet_is_b64_char.
    + cbn [base64 list_ascii_of_string forallb].
      now rewrite !sextet_is_b64_char.
    + change (base64 (a :: b :: c :: rest)) with
        (let w := N.lor (N.lor (N.shiftl (Byte.to_N a) 16)
                               (N.shiftl (Byte.to_N b) 8)) (Byte.to_N c) in
         String (sextet w 18) (String (sextet w 12)
           (String (sextet w 6) (String (sextet w 0) (base64 rest))))).
      cbv zeta. cbn [list_ascii_of_string forallb].
      rewrite !sextet_is_b64_char, IH by (simpl in Hn; lia). reflexivity.
Qed.

(** The rows [processFinancialData] offers. *)
Lemma process_offers v fd chat w :
  inserts (events (snd (processFinancialData E v fd chat w)))
  = (inserts (events w)
     ++ (if truthy fd && not_null (field fd k_value)
         then [the_row (at_insert E v fd)] else []))%list.
Proof.
  destruct (truthy fd) eqn:T; cbn [andb];
    [destruct (not_null (field fd k_value)) eqn:N|].
  - rewrite (process_qualified v fd chat w T N). open_monad.
    destruct (supabase_insert E (payments w) _); tidy.
    + destruct (bot_sendMessage E chat REPLY_SAVE_ERROR); flatten;
        now rewrite inserts_app.
    + destruct (confirmation E v (at_insert E v fd)) as [body|]; tidy;
        [destruct (bot_sendMessage E chat body)|]; flatten;
        now rewrite inserts_app.
  - assert (G : get fd k_value = Ok VNull).
    { rewrite (get_truthy fd _ T). destruct (field fd k_value);
        try discriminate; reflexivity. }
    rewrite (process_unqualified v fd chat w (or_intror G)). open_monad.
    destruct (bot_sendMessage E chat REPLY_NO_DATA); flatten;
      now rewrite inserts_app.
  - rewrite (process_unqualified v fd chat w (or_introl T)). open_monad.
    destruct (bot_sendMessage E chat REPLY_NO_DATA); flatten;
      now rewrite inserts_app.
Qed.

End Stages.

(* ================================================================= *)
(** ** The claims *)

Section Claims.

Variable E : Env.

(** C1, as amended.  When the parsed value is a well-shaped extraction
    record whose [value] is not [null] and the store accepts what the
    handling offers, exactly one row is offered and written; its [value],
    [description], [category] and [data] are those of the parsed record, and
    its [payed_at] is the parsed one, except that the schema-enforced handler
    replaces a missing, [null] or empty [payed_at] by the current time.  The
    replies are one confirmation (followed by the catch-all apology only if
    Telegram refused it); the confirmation starts with the three lines
    "Payment recorded!", amount, description, category and so contains the
    value, the description and the category as they print. *)
Theorem accepted_record_is_stored_and_confirmed v msg db raw fd :
  fst (request E v msg (start db)) = Ok (Some raw) ->
  JSON_parse E (opt_str raw) = Ok fd ->
  is_ExtractionResult fd = true ->
  field fd k_value <> VNull ->
  (forall row, In row (inserts (events (snd (on_message E v msg (start db))))) ->
               supabase_insert E db row = None) ->
  let w' := snd (on_message E v msg (start db)) in
  exists row body sv sd sc tail,
    payments w' = (db ++ [row])%list /\
    inserts (events w') = [row] /\
    r_value row = field fd k_value /\
    r_description row = field fd k_description /\
    r_category row = field fd k_category /\
    r_data row = field fd k_data /\
    r_payed_at row =
      match v with
      | Schema => if truthy (field fd k_payed_at) then field fd k_payed_at
                  else VStr (Date_now_toISOString E)
      | _ => field fd k_payed_at
      end /\
    sent (events w') = replies_ending_with E (chat_id msg) body /\
    count_replies (includes RECORDED) (events w') = 1 /\
    ToString E (field fd k_value) = Ok sv /\
    ToString E (field fd k_description) = Ok sd /\
    ToString E (field fd k_category) = Ok sc /\
    body = three_lines sv sd sc ++ tail /\
    includes sv body = true /\ includes sd body = true /\ includes sc body = true.
Proof.
  intros R P Ty N Accepts w'.
  destruct (reached_parse E v msg db raw R) as (w1 & c & R1 & Pay & S & I & A).
  pose proof (typed_truthy fd Ty) as T.
  assert (N' : not_null (field fd k_value) = true)
    by (destruct (field fd k_value); try reflexivity; now elim N).
  destruct (at_insert_typed E v fd Ty) as (Ty' & T' & Same & Payed).
  destruct (confirmation_typed E v (at_insert E v fd) Ty')
    as (sv & sd & sc & tail & Sv & Sd & Sc & Conf).
  rewrite (Same k_value), (Same k_description), (Same k_category) in *
    by discriminate.
  subst w'. revert Accepts.
  rewrite (on_message_parsed E v msg _ raw w1 fd R1 P).
  rewrite (handled_qualified E v msg fd w1 T N'). rewrite Pay, Conf.
  set (r := the_row (at_insert E v fd)).
  set (body := three_lines sv sd sc ++ tail).
  destruct (supabase_insert E db r) as [err|] eqn:Store; intros Accepts.
  { exfalso. cbn [snd events] in Accepts.
    assert (Some err = None) as [=]. rewrite <- Store. apply Accepts.
    rewrite !inserts_app, I. now left. }
  cbn [snd payments events].
  assert (Sent : sent (events w1 ++ [EvInsert r] ++ closing E (chat_id msg) body)
                 = replies_ending_with E (chat_id msg) body)
    by (now rewrite !sent_app, S, sent_closing).
  destruct (three_lines_include sv sd sc tail) as (Iv & Id & Ic).
  exists r, body, sv, sd, sc, tail. subst r.
  cbn [the_row r_value r_description r_category r_data r_payed_at].
  rewrite (Same k_value), (Same k_description), (Same k_category), (Same k_data)
    by discriminate.
  repeat split; auto.
  - now rewrite !inserts_app, I, inserts_closing.
  - unfold count_replies. rewrite Sent. apply count_one_reply; [|reflexivity].
    subst body. unfold three_lines. rewrite append_assoc.
    apply header_is_recorded.
Qed.

(** C2.  When the parsed record has [value] equal to [null], nothing is
    written to the store, no insert is even attempted, and the one reply of
    the handling is the guidance text: the replies are exactly that text
    (followed by the catch-all apology only if Telegram refused it), one of
    them contains the guidance, and when the reply is delivered the handler
    completes normally, without entering the catch block. *)
Theorem null_value_is_not_persisted v msg db raw fd :
  fst (request E v msg (start db)) = Ok (Some raw) ->
  JSON_parse E (opt_str raw) = Ok fd ->
  get fd k_value = Ok VNull ->
  let w' := snd (on_message E v msg (start db)) in
  payments w' = db /\
  inserts (events w') = [] /\
  sent (events w') = replies_ending_with E (chat_id msg) REPLY_NO_DATA /\
  count_replies (includes "couldn't find any payment information") (events w') = 1 /\
  (delivered E (chat_id msg) REPLY_NO_DATA = true ->
   on_message E v msg (start db) =
   (Ok tt, {| payments := db;
              events := (events (snd (request E v msg (start db)))
                         ++ [EvSend (chat_id msg) REPLY_NO_DATA])%list |})).
Proof.
  intros R P N w'.
  destruct (reached_parse E v msg db raw R) as (w1 & c & R1 & Pay & S & I & A).
  assert (Run := on_message_parsed E v msg _ raw w1 fd R1 P).
  rewrite (handled_unqualified E v msg fd w1 (or_intror N)) in Run.
  subst w'. rewrite Run, R1. cbn [snd payments events].
  assert (Sent : sent (events w1 ++ closing E (chat_id msg) REPLY_NO_DATA)
                 = replies_ending_with E (chat_id msg) REPLY_NO_DATA)
    by (now rewrite sent_app, S, sent_closing).
  repeat split.
  - exact Pay.
  - rewrite inserts_app, I. unfold closing, apology.
    now destruct (bot_sendMessage E (chat_id msg) REPLY_NO_DATA).
  - exact Sent.
  - unfold count_replies. rewrite Sent. now apply count_one_reply.
  - intros D. rewrite (settled_delivered E _ _ D), Pay.
    unfold closing. unfold delivered in D.
    now destruct (bot_sendMessage E (chat_id msg) REPLY_NO_DATA).
Qed.

(** C3.  When the text the model returned does not parse as JSON, nothing
    is written or even offered to the store, the model is asked exactly once
    (no retry), the raw text is logged, and the one reply of the handling is
    the "couldn't understand" text, which is not the catch-all apology: the
    replies are exactly that text (followed by the apology only if Telegram
    refused it) and exactly one of them contains "couldn't understand". *)
Theorem unparsable_answer_is_not_understood v msg db raw e :
  fst (request E v msg (start db)) = Ok (Some raw) ->
  JSON_parse E (opt_str raw) = Throw e ->
  let w' := snd (on_message E v msg (start db)) in
  payments w' = db /\
  inserts (events w') = [] /\
  length (ai_calls (events w')) = 1 /\
  In (EvLog "Raw response:" (LText raw)) (events w') /\
  sent (events w') = replies_ending_with E (chat_id msg) REPLY_NOT_UNDERSTOOD /\
  count_replies (includes "couldn't understand") (events w') = 1 /\
  REPLY_NOT_UNDERSTOOD <> REPLY_GENERIC.
Proof.
  intros R P w'.
  destruct (reached_parse E v msg db raw R) as (w1 & c & R1 & Pay & S & I & A).
  subst w'. rewrite (on_message_unparsed E v msg _ raw w1 e R1 P).
  cbn [snd payments events].
  assert (Sent : sent (events w1
                       ++ [EvLog "Failed to parse Gemini response:" (LExn e);
                           EvLog "Raw response:" (LText raw)]
                       ++ closing E (chat_id msg) REPLY_NOT_UNDERSTOOD)
                 = replies_ending_with E (chat_id msg) REPLY_NOT_UNDERSTOOD)
    by (now rewrite !sent_app, S, sent_closing).
  repeat split.
  - exact Pay.
  - rewrite !inserts_app, I. unfold closing, apology.
    now destruct (bot_sendMessage E (chat_id msg) REPLY_NOT_UNDERSTOOD).
  - rewrite !ai_calls_app, A. unfold closing, apology.
    now destruct (bot_sendMessage E (chat_id msg) REPLY_NOT_UNDERSTOOD).
  - apply in_or_app. right. apply in_or_app. left. right. now left.
  - exact Sent.
  - unfold count_replies. rewrite Sent. now apply count_one_reply.
  - discriminate.
Qed.

(** C4.  In the schema-enforced handler, a parsed record whose [value] is
    not [null] and whose [payed_at] is [null] is offered to the store exactly
    once, with the current time under [payed_at]: the offered [payed_at] is
    not [null], and the row the store keeps, if it accepts, is that row. *)
Theorem null_payed_at_defaults_to_now msg db raw fd :
  fst (request E Schema msg (start db)) = Ok (Some raw) ->
  JSON_parse E (opt_str raw) = Ok fd ->
  field fd k_value <> VNull ->
  get fd k_payed_at = Ok VNull ->
  let w' := snd (on_message E Schema msg (start db)) in
  exists row,
    inserts (events w') = [row] /\
    r_payed_at row = VStr (Date_now_toISOString E) /\
    r_payed_at row <> VNull /\
    payments w' = match supabase_insert E db row with
                  | None => (db ++ [row])%list
                  | Some _ => db
                  end.
Proof.
  intros R P N Pd w'.
  destruct (reached_parse E Schema msg db raw R) as (w1 & c & R1 & Pay & S & I & A).
  assert (T : truthy fd = true)
    by (apply object_like_truthy, (get_null_object_like fd _ Pd)).
  assert (N' : not_null (field fd k_value) = true)
    by (destruct (field fd k_value); try reflexivity; now elim N).
  subst w'. rewrite (on_message_parsed E Schema msg _ raw w1 fd R1 P).
  rewrite (handled_qualified E Schema msg fd w1 T N'). rewrite Pay.
  assert (Now : r_payed_at (the_row (at_insert E Schema fd))
                = VStr (Date_now_toISOString E)).
  { cbn [the_row r_payed_at at_insert].
    destruct (default_payed_at_truthy E fd T) as (fd' & -> & _ & Pa & _).
    rewrite Pa. unfold payed_at_after.
    rewrite (get_field fd _ _ Pd). cbn [truthy].
    now rewrite (get_null_object_like fd _ Pd). }
  exists (the_row (at_insert E Schema fd)).
  destruct (supabase_insert E db (the_row (at_insert E Schema fd)));
    [|destruct (confirmation E Schema (at_insert E Schema fd))];
    cbn [snd payments events]; rewrite ?inserts_app, I; cbn [app];
    unfold closing, apology;
    repeat split; try exact Now; try (rewrite Now; discriminate).
  all: match goal with
       | |- context [bot_sendMessage E ?c ?b] => now destruct (bot_sendMessage E c b)
       | _ => reflexivity
       end.
Qed.

(** C5.  When the handling offers a row to the store and the store rejects
    it, the table is left as it was, that row is the only one offered (no
    second attempt), the model was asked once, and the replies are the
    "error saving" text (followed by the catch-all apology only if Telegram
    refused it): exactly one reply contains "error saving" and none is a
    confirmation. *)
Theorem rejected_insert_is_reported v msg db row :
  In row (inserts (events (snd (on_message E v msg (start db))))) ->
  supabase_insert E db row <> None ->
  let w' := snd (on_message E v msg (start db)) in
  payments w' = db /\
  inserts (events w') = [row] /\
  length (ai_calls (events w')) = 1 /\
  sent (events w') = replies_ending_with E (chat_id msg) REPLY_SAVE_ERROR /\
  count_replies (includes "error saving") (events w') = 1 /\
  count_replies (includes RECORDED) (events w') = 0.
Proof.
  intros Offered Rejected w'.
  destruct (insert_only_if_qualified E v msg db) as [No|(raw & fd & R & P & T & N)].
  { rewrite No in Offered. destruct Offered. }
  destruct (reached_parse E v msg db raw R) as (w1 & c & R1 & Pay & S & I & A).
  subst w'. revert Offered.
  rewrite (on_message_parsed E v msg _ raw w1 fd R1 P).
  rewrite (handled_qualified E v msg fd w1 T N). rewrite Pay.
  set (r := the_row (at_insert E v fd)).
  assert (Same : In row (inserts (events w1) ++ [r]) -> row = r).
  { rewrite I. intros [<-|[]]. reflexivity. }
  destruct (supabase_insert E db r) as [err|] eqn:Store.
  - cbn [snd payments events]. rewrite !inserts_app, inserts_closing, app_nil_r.
    intros In1. apply Same in In1. subst row.
    assert (Sent : sent (events w1
                         ++ [EvInsert r; EvLog "Supabase error:" (LStore err)]
                         ++ closing E (chat_id msg) REPLY_SAVE_ERROR)
                   = replies_ending_with E (chat_id msg) REPLY_SAVE_ERROR)
      by (now rewrite !sent_app, S, sent_closing).
    repeat split.
    + now rewrite I.
    + now rewrite !ai_calls_app, A, ai_calls_closing.
    + exact Sent.
    + unfold count_replies. rewrite Sent. now apply count_one_reply.
    + unfold count_replies. rewrite Sent. now apply count_no_reply.
  - intros In1. exfalso. apply Rejected.
    assert (row = r) as ->; [|exact Store].
    apply Same.
    destruct (confirmation E v (at_insert E v fd)); cbn [snd events] in In1;
      rewrite !inserts_app in In1; unfold apology in In1;
      rewrite ?inserts_closing, ?app_nil_r in In1; exact In1.
Qed.

(** C6, as amended.  For a message with neither text nor photo, the
    photo-capable handlers send the resend prompt and return: the handling
    is that one reply (followed by the catch-all apology only if Telegram
    refused it), with no download, no request to the model and no store
    access.  The text-only handler of src/index.js has no such test: it asks
    the model, with the word "undefined" where the message text would be. *)
Theorem neither_text_nor_photo v msg db :
  text msg = None ->
  photo msg = None ->
  let w' := snd (on_message E v msg (start db)) in
  match v with
  | TextOnly =>
      ai_calls (events w') =
      [Text (EXTRACTION_PROMPT TextOnly ++ LF ++ LF
             ++ "Message to analyze: " ++ "undefined")]
  | _ =>
      on_message E v msg (start db) =
        (settled E (chat_id msg) REPLY_RESEND,
         {| payments := db; events := closing E (chat_id msg) REPLY_RESEND |}) /\
      sent (events w') = replies_ending_with E (chat_id msg) REPLY_RESEND /\
      ai_calls (events w') = [] /\
      fetches (events w') = [] /\
      inserts (events w') = []
  end.
Proof.
  intros NoText NoPhoto w'.
  assert (Capable : v <> TextOnly ->
    on_message E v msg (start db) =
      (settled E (chat_id msg) REPLY_RESEND,
       {| payments := db; events := closing E (chat_id msg) REPLY_RESEND |})).
  { intros C. unfold settled, after_apology, closing, apology.
    destruct v; [now elim C| |]; open_monad; rewrite NoText, NoPhoto; tidy;
      (destruct (bot_sendMessage E (chat_id msg) REPLY_RESEND);
       [destruct (bot_sendMessage E (chat_id msg) REPLY_GENERIC)|]);
      reflexivity. }
  destruct v.
  - destruct (on_message_trace E TextOnly msg (start db)) as (evs & Ev & A & _).
    subst w'. rewrite Ev, ai_calls_app, A, app_nil_r.
    unfold request, text_prompt. rewrite NoText. open_monad.
    now destruct (model_generateContent E _).
  - subst w'. rewrite Capable by discriminate. cbn [snd events].
    split; [reflexivity|].
    rewrite sent_closing, ai_calls_closing, inserts_closing.
    repeat split. unfold closing, apology.
    now destruct (bot_sendMessage E (chat_id msg) REPLY_RESEND).
  - subst w'. rewrite Capable by discriminate. cbn [snd events].
    split; [reflexivity|].
    rewrite sent_closing, ai_calls_closing, inserts_closing.
    repeat split. unfold closing, apology.
    now destruct (bot_sendMessage E (chat_id msg) REPLY_RESEND).
Qed.

(** C7, as amended.  In the photo-capable handlers, for a message whose
    photo sequence ends with the size [p], when Telegram resolves [p] to a
    file and the download of that file's URL succeeds, the handling resolves
    exactly [p], downloads exactly that URL, and asks the model exactly
    once, with the prompt and the base64 encoding of the downloaded bytes
    tagged [image/jpeg].  The encoding has four characters for every started
    group of three bytes, so it is empty exactly when the file is. *)
Theorem last_photo_is_sent_as_base64 v msg db front p info bytes :
  v <> TextOnly ->
  photo msg = Some (front ++ [p])%list ->
  bot_getFile E (file_id p) = Ok info ->
  axios_get E (fileUrl E info) = Ok bytes ->
  let w' := snd (on_message E v msg (start db)) in
  fetches (events w') = [file_id p; fileUrl E info] /\
  fileUrl E info = "https://api.telegram.org/file/bot"
                   ++ opt_str (TELEGRAM_BOT_TOKEN E) ++ "/"
                   ++ opt_str (file_path info) /\
  ai_calls (events w') =
    [WithImage (EXTRACTION_PROMPT v) (base64 bytes) "image/jpeg"] /\
  String.length (base64 bytes) = 4 * ((length bytes + 2) / 3) /\
  (base64 bytes = EmptyString <-> bytes = []).
Proof.
  intros Capable Photos Resolved Downloaded w'.
  destruct (on_message_trace E v msg (start db)) as (evs & Ev & A & F).
  subst w'. rewrite Ev, ai_calls_app, fetches_app, A, F, !app_nil_r.
  split; [|split; [reflexivity|split; [|split]]].
  - destruct v; [now elim Capable| |];
      unfold request, normalize; open_monad;
      rewrite Photos, last_element_snoc, Resolved; tidy;
      rewrite Downloaded; tidy.
    + now destruct (model_generateContent E _).
    + now destruct (ai_models_generateContent E _ _).
  - destruct v; [now elim Capable| |];
      unfold request, normalize; open_monad;
      rewrite Photos, last_element_snoc, Resolved; tidy;
      rewrite Downloaded; tidy.
    + now destruct (model_generateContent E _).
    + now destruct (ai_models_generateContent E _ _).
  - apply base64_length.
  - apply base64_empty_iff.
Qed.

(** C8, as amended.  An exception that leaves the [try] body is caught: the
    handler logs it, sends the catch-all apology once, and that is the only
    apology of the handling; the store is not touched by the catch block.
    The handler's promise is fulfilled when the apology is delivered and is
    rejected, with the error of that send, when Telegram refuses the
    apology: nothing catches that rejection.  A [try] body that completes
    sends no apology and the promise is fulfilled. *)
Theorem outer_catch v msg db :
  match on_message_body E v msg (start db) with
  | (Ok _, w1) =>
      on_message E v msg (start db) = (Ok tt, w1) /\
      count_replies is_apology (events w1) = 0
  | (Throw e, w1) =>
      on_message E v msg (start db) =
        (match bot_sendMessage E (chat_id msg) REPLY_GENERIC with
         | None => Ok tt
         | Some e' => Throw e'
         end,
         {| payments := payments w1;
            events := (events w1
                       ++ [EvLog "Error processing message:" (LExn e);
                           EvSend (chat_id msg) REPLY_GENERIC])%list |}) /\
      count_replies is_apology
        (events (snd (on_message E v msg (start db)))) = 1
  end.
Proof.
  destruct (body_trace E v msg (start db)) as (evs & Ev & L).
  destruct (late_quiet evs L) as (_ & _ & C).
  destruct (request_trace E v msg (start db)) as (_ & evs0 & Ev0 & _ & C0 & _).
  rewrite Ev0 in Ev. cbn [start events app] in Ev.
  assert (Quiet : count_replies is_apology
                    (events (snd (on_message_body E v msg (start db)))) = 0)
    by (now rewrite Ev, count_replies_app, C0, C).
  destruct (on_message_body E v msg (start db)) as [[[]|e] w1] eqn:B;
    cbn [snd] in Quiet.
  - split; [apply (on_message_returns E v msg _ w1 B) | exact Quiet].
  - rewrite (on_message_throws E v msg _ e w1 B). split; [reflexivity|].
    cbn [snd events]. rewrite count_replies_app, Quiet. reflexivity.
Qed.

(** C9.  A parsed value that is truthy and has nothing under [value] (a
    bare number, [true], a non-empty string, an array, an object without that
    member) qualifies: the handling offers exactly one row to the store, with
    [undefined] under [value] and whatever the value has under the other
    names, which for a number, a boolean or a string is [undefined] five
    times.  A parsed value that is falsy ([null], [false], [0], the empty
    string) takes the no-data path: nothing is offered or written, and the
    reply is the guidance text. *)
Theorem shapeless_answers v msg db raw fd :
  fst (request E v msg (start db)) = Ok (Some raw) ->
  JSON_parse E (opt_str raw) = Ok fd ->
  truthy fd = false \/ get fd k_value = Ok VUndefined ->
  let w' := snd (on_message E v msg (start db)) in
  if truthy fd
  then exists row,
         inserts (events w') = [row] /\
         r_value row = VUndefined /\
         r_description row = field fd k_description /\
         r_category row = field fd k_category /\
         r_data row = field fd k_data /\
         r_payed_at row =
           match v with
           | Schema => if truthy (field fd k_payed_at) then field fd k_payed_at
                       else if object_like fd then VStr (Date_now_toISOString E)
                       else VUndefined
           | _ => field fd k_payed_at
           end /\
         (object_like fd = false ->
          row = {| r_value := VUndefined; r_description := VUndefined;
                   r_category := VUndefined; r_payed_at := VUndefined;
                   r_data := VUndefined |})
  else payments w' = db /\
       inserts (events w') = [] /\
       sent (events w') = replies_ending_with E (chat_id msg) REPLY_NO_DATA.
Proof.
  intros R P Shape w'.
  destruct (reached_parse E v msg db raw R) as (w1 & c & R1 & Pay & S & I & A).
  subst w'. rewrite (on_message_parsed E v msg _ raw w1 fd R1 P).
  destruct (truthy fd) eqn:T.
  - destruct Shape as [|G]; [discriminate|].
    pose proof (get_field fd _ _ G) as V.
    assert (N : not_null (field fd k_value) = true) by now rewrite V.
    assert (Fields : forall k, k <> k_payed_at ->
                       field (at_insert E v fd) k = field fd k).
    { destruct v; cbn [at_insert]; auto.
      destruct (default_payed_at_truthy E fd T) as (fd' & -> & _ & _ & Same & _).
      exact Same. }
    assert (Payed : field (at_insert E v fd) k_payed_at =
                    match v with
                    | Schema => payed_at_after E fd
                    | _ => field fd k_payed_at
                    end).
    { destruct v; cbn [at_insert]; auto.
      now destruct (default_payed_at_truthy E fd T) as (fd' & -> & _ & Pa & _). }
    exists (the_row (at_insert E v fd)).
    unfold the_row at 2 3 4 5 6 7.
    cbn [r_value r_description r_category r_data r_payed_at].
    rewrite (Fields k_value), (Fields k_description), (Fields k_category),
      (Fields k_data), Payed, V by discriminate.
    split.
    { rewrite (handled_qualified E v msg fd w1 T N).
      destruct (supabase_insert E (payments w1) (the_row (at_insert E v fd)));
        [|destruct (confirmation E v (at_insert E v fd))];
        cbn [snd events]; rewrite !inserts_app, I; unfold apology;
        rewrite ?inserts_closing; reflexivity. }
    repeat split; auto.
    intros Prim. rewrite !(field_of_primitive fd _ Prim).
    destruct v; try reflexivity.
    unfold payed_at_after. rewrite (field_of_primitive fd _ Prim), Prim.
    reflexivity.
  - rewrite (handled_unqualified E v msg fd w1 (or_introl T)).
    cbn [snd payments events]. repeat split.
    + exact Pay.
    + now rewrite inserts_app, I, inserts_closing.
    + now rewrite sent_app, S, sent_closing.
Qed.

(** C10.  In the photo-capable handlers, a message whose [photo] is an empty
    sequence passes the truthiness test, reading [file_id] of the missing
    last element throws before any file is resolved, and the outer catch
    answers: the whole handling is the error log and the catch-all apology,
    with no download, no request to the model, no store access and no resend
    prompt. *)
Theorem empty_photo_sequence v msg db :
  v <> TextOnly ->
  photo msg = Some [] ->
  on_message E v msg (start db) =
    (after_apology E (chat_id msg),
     {| payments := db;
        events := apology (chat_id msg)
                    (TypeError "Cannot read properties of undefined (reading 'file_id')") |}) /\
  let w' := snd (on_message E v msg (start db)) in
  sent (events w') = [(chat_id msg, REPLY_GENERIC)] /\
  fetches (events w') = [] /\
  ai_calls (events w') = [] /\
  inserts (events w') = [].
Proof.
  intros Capable Empty.
  assert (Run : on_message E v msg (start db) =
    (after_apology E (chat_id msg),
     {| payments := db;
        events := apology (chat_id msg)
                    (TypeError "Cannot read properties of undefined (reading 'file_id')") |})).
  { rewrite (on_message_throws E v msg (start db)
               (TypeError "Cannot read properties of undefined (reading 'file_id')")
               (start db)); [reflexivity|].
    destruct v; [now elim Capable| |];
      unfold on_message_body, request, normalize, bind, lift;
      rewrite Empty; reflexivity. }
  split; [exact Run|]. rewrite Run. repeat split.
Qed.

End Claims.

(** The lunch scenario of the spec, in the schema-enforced handler. *)
Example lunch_is_recorded :
  on_message Run.lunch_env Schema Run.lunch_message (start []) =
  (Ok tt,
   {| payments := [Run.lunch_row];
      events :=
        [ EvGenerate (Text (text_prompt Schema Run.lunch_message))
                     (Some SCHEMA_CONFIG);
          EvLog "Gemini response:" (LText (Some Sample.LUNCH_JSON));
          EvInsert Run.lunch_row;
          EvSend 7 (lines [ RECORDED; EmptyString; "Amount: $25.5";
                            "Description: lunch"; "Category: food";
                            "Date: 11/2/2026" ]) ] |}).
Proof. vm_compute. reflexivity. Qed.

(** The same message in the text-only handler: [payed_at] stays [null] and
    the confirmation has no date line. *)
Example lunch_is_recorded_without_date :
  on_message Run.lunch_env TextOnly Run.lunch_message (start []) =
  (Ok tt,
   {| payments := [the_row Sample.lunch];
      events :=
        [ EvGenerate (Text (text_prompt TextOnly Run.lunch_message)) None;
          EvLog "Gemini response:" (LText (Some Sample.LUNCH_JSON));
          EvInsert (the_row Sample.lunch);
          EvSend 7 (lines [ RECORDED; EmptyString; "Amount: $25.5";
                            "Description: lunch"; "Category: food" ]) ] |}).
Proof. vm_compute. reflexivity. Qed.

(** C1, as stated, fails in the schema-enforced handler: the parsed record
    of the lunch scenario is well shaped, its [value] is not [null], the
    store accepts, and the stored [payed_at] is the current time while the
    parsed [payed_at] is [null]. *)
Lemma stored_payed_at_differs_from_parsed :
  let E := Run.lunch_env in
  let w' := snd (on_message E Schema Run.lunch_message (start [])) in
  fst (request E Schema Run.lunch_message (start []))
    = Ok (Some (Some Sample.LUNCH_JSON)) /\
  JSON_parse E Sample.LUNCH_JSON = Ok Sample.lunch /\
  is_ExtractionResult Sample.lunch = true /\
  field Sample.lunch k_value <> VNull /\
  field Sample.lunch k_payed_at = VNull /\
  payments w' = [Run.lunch_row] /\
  r_payed_at Run.lunch_row = VStr Sample.NOW /\
  r_payed_at Run.lunch_row <> field Sample.lunch k_payed_at.
Proof.
  cbv zeta. repeat split; try (vm_compute; reflexivity); discriminate.
Qed.

Lemma accepted_record_witness :
  let E := Run.lunch_env in
  let w' := snd (on_message E Schema Run.lunch_message (start [])) in
  exists row body sv sd sc tail,
    payments w' = ([] ++ [row])%list /\
    inserts (events w') = [row] /\
    r_value row = field Sample.lunch k_value /\
    r_description row = field Sample.lunch k_description /\
    r_category row = field Sample.lunch k_category /\
    r_data row = field Sample.lunch k_data /\
    r_payed_at row =
      (if truthy (field Sample.lunch k_payed_at)
       then field Sample.lunch k_payed_at
       else VStr (Date_now_toISOString E)) /\
    sent (events w') = replies_ending_with E (chat_id Run.lunch_message) body /\
    count_replies (includes RECORDED) (events w') = 1 /\
    ToString E (field Sample.lunch k_value) = Ok sv /\
    ToString E (field Sample.lunch k_description) = Ok sd /\
    ToString E (field Sample.lunch k_category) = Ok sc /\
    body = three_lines sv sd sc ++ tail /\
    includes sv body = true /\ includes sd body = true /\ includes sc body = true.
Proof.
  apply (accepted_record_is_stored_and_confirmed Run.lunch_env Schema
           Run.lunch_message [] (Some Sample.LUNCH_JSON) Sample.lunch).
  - reflexivity.
  - reflexivity.
  - reflexivity.
  - discriminate.
  - intros row _. reflexivity.
Defined.

Lemma null_value_witness :
  let E := Run.quiet_env in
  let msg := Run.hello_message in
  let w' := snd (on_message E Photo msg (start [Run.lunch_row])) in
  payments w' = [Run.lunch_row] /\
  inserts (events w') = [] /\
  sent (events w') = replies_ending_with E (chat_id msg) REPLY_NO_DATA /\
  count_replies (includes "couldn't find any payment information") (events w') = 1 /\
  (delivered E (chat_id msg) REPLY_NO_DATA = true ->
   on_message E Photo msg (start [Run.lunch_row]) =
   (Ok tt, {| payments := [Run.lunch_row];
              events := (events (snd (request E Photo msg (start [Run.lunch_row])))
                         ++ [EvSend (chat_id msg) REPLY_NO_DATA])%list |})).
Proof.
  apply (null_value_is_not_persisted Run.quiet_env Photo Run.hello_message
           [Run.lunch_row] (Some NULL_OBJECT) Sample.nothing_found);
    reflexivity.
Defined.

(** The second scenario of the spec: the reply is exactly the guidance text. *)
Example hello_gets_the_guidance :
  sent (events (snd (on_message Run.quiet_env Schema Run.hello_message (start []))))
  = [(7%Z, REPLY_NO_DATA)].
Proof. vm_compute. reflexivity. Qed.

Lemma unparsable_answer_witness :
  let E := Run.garbled_env in
  let msg := Run.lunch_message in
  let raw := Some "Sure! Here is the JSON you asked for" in
  let w' := snd (on_message E TextOnly msg (start [])) in
  payments w' = [] /\
  inserts (events w') = [] /\
  length (ai_calls (events w')) = 1 /\
  In (EvLog "Raw response:" (LText raw)) (events w') /\
  sent (events w') = replies_ending_with E (chat_id msg) REPLY_NOT_UNDERSTOOD /\
  count_replies (includes "couldn't understand") (events w') = 1 /\
  REPLY_NOT_UNDERSTOOD <> REPLY_GENERIC.
Proof.
  apply (unparsable_answer_is_not_understood Run.garbled_env TextOnly
           Run.lunch_message [] (Some "Sure! Here is the JSON you asked for")
           (SyntaxError "Unexpected token"));
    reflexivity.
Defined.

Lemma null_payed_at_witness :
  let E := Run.lunch_env in
  let w' := snd (on_message E Schema Run.lunch_message (start [])) in
  exists row,
    inserts (events w') = [row] /\
    r_payed_at row = VStr (Date_now_toISOString E) /\
    r_payed_at row <> VNull /\
    payments w' = match supabase_insert E [] row with
                  | None => ([] ++ [row])%list
                  | Some _ => []
                  end.
Proof.
  apply (null_payed_at_defaults_to_now Run.lunch_env Run.lunch_message []
           (Some Sample.LUNCH_JSON) Sample.lunch).
  - reflexivity.
  - reflexivity.
  - discriminate.
  - reflexivity.
Defined.

Lemma rejected_insert_witness :
  let E := Run.store_down in
  let msg := Run.lunch_message in
  let w' := snd (on_message E Schema msg (start [])) in
  payments w' = [] /\
  inserts (events w') = [Run.lunch_row] /\
  length (ai_calls (events w')) = 1 /\
  sent (events w') = replies_ending_with E (chat_id msg) REPLY_SAVE_ERROR /\
  count_replies (includes "error saving") (events w') = 1 /\
  count_replies (includes RECORDED) (events w') = 0.
Proof.
  apply (rejected_insert_is_reported Run.store_down Schema Run.lunch_message []
           Run.lunch_row).
  - left. reflexivity.
  - discriminate.
Defined.

(** C6, as stated, fails in the text-only handler: a message with neither
    text nor photo is sent to the model (the prompt ends with "undefined"),
    and the reply is whatever the answer leads to, here the no-data
    guidance, not the resend prompt. *)
Lemma text_only_handler_asks_the_model_anyway :
  let w' := snd (on_message Run.quiet_env TextOnly Sample.empty_message (start [])) in
  text Sample.empty_message = None /\
  photo Sample.empty_message = None /\
  ai_calls (events w') =
    [Text (EXTRACTION_PROMPT TextOnly ++ LF ++ LF ++ "Message to analyze: undefined")] /\
  sent (events w') = [(7%Z, REPLY_NO_DATA)] /\
  sent (events w') <> [(7%Z, REPLY_RESEND)].
Proof.
  cbv zeta. repeat split; try (vm_compute; reflexivity).
  vm_compute. discriminate.
Qed.

Lemma neither_text_nor_photo_witness :
  let E := Run.quiet_env in
  let msg := Sample.empty_message in
  let w' := snd (on_message E Schema msg (start [])) in
  on_message E Schema msg (start []) =
    (settled E (chat_id msg) REPLY_RESEND,
     {| payments := []; events := closing E (chat_id msg) REPLY_RESEND |}) /\
  sent (events w') = replies_ending_with E (chat_id msg) REPLY_RESEND /\
  ai_calls (events w') = [] /\
  fetches (events w') = [] /\
  inserts (events w') = [].
Proof.
  apply (neither_text_nor_photo Run.quiet_env Schema Sample.empty_message []);
    reflexivity.
Defined.

(** C7, as stated, fails on three kinds of photo message: with an empty
    photo sequence, and with a file Telegram cannot resolve, nothing is sent
    to the model; with an empty file, the payload sent is the empty string. *)
Lemma photo_without_payload :
  ai_calls (events (snd (on_message Run.lunch_env Schema
                           (Sample.photo_message []) (start [])))) = [] /\
  (let E := Sample.env {| Sample.answer := Sample.LUNCH_JSON;
                          Sample.store_up := true; Sample.telegram_up := true;
                          Sample.model_up := true |} in
   let unresolved := {| JSON_parse := JSON_parse E;
                        Number_toString := Number_toString E;
                        String_trim := String_trim E;
                        Date_toLocaleDateString := Date_toLocaleDateString E;
                        Date_now_toISOString := Date_now_toISOString E;
                        TELEGRAM_BOT_TOKEN := TELEGRAM_BOT_TOKEN E;
                        bot_getFile := fun _ => Throw (ServiceError "400 Bad Request");
                        axios_get := axios_get E;
                        model_generateContent := model_generateContent E;
                        ai_models_generateContent := ai_models_generateContent E;
                        supabase_insert := supabase_insert E;
                        bot_sendMessage := bot_sendMessage E |} in
   ai_calls (events (snd (on_message unresolved Schema
                            Run.receipt_message (start [])))) = []) /\
  ai_calls (events (snd (on_message Run.empty_file Schema
                           Run.receipt_message (start []))))
  = [WithImage EXTRACTION_PROMPT_schema EmptyString "image/jpeg"].
Proof. cbv zeta. repeat split; vm_compute; reflexivity. Qed.

Lemma last_photo_witness :
  let E := Run.lunch_env in
  let bytes := [Byte.xff; Byte.xd8; Byte.xff; Byte.xe0] in
  let w' := snd (on_message E Schema Run.receipt_message (start [])) in
  fetches (events w') = [file_id Run.large; fileUrl E Run.jpeg_file] /\
  fileUrl E Run.jpeg_file = "https://api.telegram.org/file/bot"
                   ++ opt_str (TELEGRAM_BOT_TOKEN E) ++ "/"
                   ++ opt_str (file_path Run.jpeg_file) /\
  ai_calls (events w') =
    [WithImage (EXTRACTION_PROMPT Schema) (base64 bytes) "image/jpeg"] /\
  String.length (base64 bytes) = 4 * ((length bytes + 2) / 3) /\
  (base64 bytes = EmptyString <-> bytes = []).
Proof.
  apply (last_photo_is_sent_as_base64 Run.lunch_env Schema Run.receipt_message []
           [Run.small] Run.large Run.jpeg_file
           [Byte.xff; Byte.xd8; Byte.xff; Byte.xe0]).
  - discriminate.
  - reflexivity.
  - reflexivity.
  - reflexivity.
Defined.

(** C8, as stated, fails when Telegram refuses the apology too: the model
    call throws, the outer catch runs, its own [sendMessage] throws, and the
    handler's promise is rejected with that error. *)
Lemma rejected_apology_escapes :
  on_message_body Run.all_down Schema Run.lunch_message (start [])
  = (Throw (ServiceError "503"),
     {| payments := [];
        events := [EvGenerate (Text (text_prompt Schema Run.lunch_message))
                              (Some SCHEMA_CONFIG)] |}) /\
  fst (on_message Run.all_down Schema Run.lunch_message (start []))
  = Throw (ServiceError "403 Forbidden") /\
  sent (events (snd (on_message Run.all_down Schema Run.lunch_message (start []))))
  = [(7%Z, REPLY_GENERIC)] /\
  delivered Run.all_down 7 REPLY_GENERIC = false.
Proof. repeat split; vm_compute; reflexivity. Qed.

Lemma shapeless_answers_witness :
  let E := Run.number_env in
  let msg := Run.lunch_message in
  let fd := VNum 42 in
  let w' := snd (on_message E TextOnly msg (start [])) in
  if truthy fd
  then exists row,
         inserts (events w') = [row] /\
         r_value row = VUndefined /\
         r_description row = field fd k_description /\
         r_category row = field fd k_category /\
         r_data row = field fd k_data /\
         r_payed_at row = field fd k_payed_at /\
         (object_like fd = false ->
          row = {| r_value := VUndefined; r_description := VUndefined;
                   r_category := VUndefined; r_payed_at := VUndefined;
                   r_data := VUndefined |})
  else payments w' = [] /\
       inserts (events w') = [] /\
       sent (events w') = replies_ending_with E (chat_id msg) REPLY_NO_DATA.
Proof.
  apply (shapeless_answers Run.number_env TextOnly Run.lunch_message []
           (Some "42") (VNum 42)).
  - reflexivity.
  - reflexivity.
  - right. reflexivity.
Defined.

(** A bare number in the schema-enforced handler: a row of five
    [undefined] is offered and kept, and the confirmation prints them. *)
Example bare_number_is_stored :
  let w' := snd (on_message Run.number_env Schema Run.lunch_message (start [])) in
  payments w' =
    [{| r_value := VUndefined; r_description := VUndefined;
        r_category := VUndefined; r_payed_at := VUndefined;
        r_data := VUndefined |}] /\
  sent (events w') =
    [(7%Z, lines [ RECORDED; EmptyString; "Amount: $undefined";
                   "Description: undefined"; "Category: undefined";
                   "Date: Invalid Date" ])].
Proof. cbv zeta. split; vm_compute; reflexivity. Qed.

Lemma empty_photo_sequence_witness :
  let E := Run.lunch_env in
  let msg := Sample.photo_message [] in
  on_message E Schema msg (start []) =
    (after_apology E (chat_id msg),
     {| payments := [];
        events := apology (chat_id msg)
                    (TypeError "Cannot read properties of undefined (reading 'file_id')") |}) /\
  let w' := snd (on_message E Schema msg (start [])) in
  sent (events w') = [(chat_id msg, REPLY_GENERIC)] /\
  fetches (events w') = [] /\
  ai_calls (events w') = [] /\
  inserts (events w') = [].
Proof.
  apply (empty_photo_sequence Run.lunch_env Schema (Sample.photo_message []) []).
  - discriminate.
  - reflexivity.
Defined.

(* ================================================================= *)
(** ** Beyond the claims: what every handling does and never does *)

Section Beyond.

Variable E : Env.

(** X1.  No handling asks the model more than once, whatever the message
    and whatever the services answer: there is no retry. *)
Theorem at_most_one_model_call v msg db :
  length (ai_calls (events (snd (on_message E v msg (start db))))) <= 1.
Proof.
  destruct (on_message_trace E v msg (start db)) as (evs & Ev & A & _).
  destruct (request_trace E v msg (start db)) as (_ & evs0 & Ev0 & _ & _ & Le).
  rewrite Ev, Ev0, !ai_calls_app, A, app_nil_r. exact Le.
Qed.

(** X2.  The handler only ever appends to the table: after a handling the
    table is the table before followed by the rows offered that the store
    accepted, and at most one row is offered. *)
Theorem store_is_append_only v msg db :
  let w' := snd (on_message E v msg (start db)) in
  payments w' = (db ++ filter (accepted E db) (inserts (events w')))%list /\
  length (inserts (events w')) <= 1.
Proof.
  intros w'. subst w'. pose proof (run_summary E v msg db) as Sum.
  cbv zeta in Sum. unfold accepted.
  destruct (fst (request E v msg (start db))) as [[raw|]|e].
  - destruct (JSON_parse E (opt_str raw)) as [fd|e].
    + destruct (truthy fd && not_null (field fd k_value)).
      * destruct Sum as (-> & Sum). cbn [filter length].
        destruct (supabase_insert E db (the_row (at_insert E v fd)));
          destruct Sum as (-> & _); rewrite ?app_nil_r; auto.
      * destruct Sum as (-> & -> & _). cbn. rewrite app_nil_r. auto.
    + destruct Sum as (-> & -> & _). cbn. rewrite app_nil_r. auto.
  - destruct Sum as (-> & -> & _). cbn. rewrite app_nil_r. auto.
  - destruct Sum as (-> & -> & _). cbn. rewrite app_nil_r. auto.
Qed.

(** X3.  Every handling answers the chat the message came from, with one of
    six texts: either the only reply is the catch-all apology, or the first
    reply is the resend prompt, the "couldn't understand" text, the no-data
    guidance, the "error saving" text or a confirmation, and it is followed
    by the apology exactly when Telegram refused it.  So there is at least
    one reply and there are at most two. *)
Theorem replies_are_classified v msg db :
  let chat := chat_id msg in
  let replies := sent (events (snd (on_message E v msg (start db)))) in
  replies = [(chat, REPLY_GENERIC)] \/
  exists body,
    replies = replies_ending_with E chat body /\
    (body = REPLY_RESEND \/ body = REPLY_NOT_UNDERSTOOD \/
     body = REPLY_NO_DATA \/ body = REPLY_SAVE_ERROR \/
     exists rest, body = HEADER ++ rest).
Proof.
  intros chat replies. subst chat replies.
  pose proof (run_summary E v msg db) as Sum. cbv zeta in Sum.
  destruct (request_facts E v msg db) as (_ & _ & Facts).
  destruct (fst (request E v msg (start db))) as [[raw|]|e].
  - destruct (JSON_parse E (opt_str raw)) as [fd|e].
    + destruct (truthy fd && not_null (field fd k_value)).
      * destruct Sum as (_ & Sum).
        destruct (supabase_insert E db (the_row (at_insert E v fd))).
        -- destruct Sum as (_ & -> & _). right. eauto 8.
        -- destruct Sum as (_ & Sum).
           destruct (confirmation E v (at_insert E v fd)) as [body|] eqn:C.
           ++ destruct Sum as (-> & _).
              destruct (confirmation_header E v _ body C) as [rest ->].
              right. eauto 8.
           ++ destruct Sum as (-> & _). now left.
      * destruct Sum as (_ & _ & -> & _). right. eauto 8.
    + destruct Sum as (_ & _ & -> & _). right. eauto 8.
  - destruct Sum as (_ & _ & -> & _). destruct Facts as (_ & D & _).
    right. exists REPLY_RESEND. unfold replies_ending_with, delivered.
    rewrite D. auto.
  - destruct Sum as (_ & _ & -> & _).
    destruct Facts as [(-> & _)|(-> & D & _)]; [now left|].
    right. exists REPLY_RESEND. unfold replies_ending_with, delivered.
    rewrite D. auto.
Qed.

(** X4.  When Telegram accepts every message, every handling sends exactly
    one reply and the handler's promise is fulfilled. *)
Theorem one_reply_when_telegram_delivers v msg db :
  (forall chat body, bot_sendMessage E chat body = None) ->
  fst (on_message E v msg (start db)) = Ok tt /\
  exists body,
    sent (events (snd (on_message E v msg (start db)))) = [(chat_id msg, body)].
Proof.
  intros Up.
  assert (St : forall body, settled E (chat_id msg) body = Ok tt)
    by (intros; unfold settled; now rewrite Up).
  assert (Ap : after_apology E (chat_id msg) = Ok tt)
    by (unfold after_apology; now rewrite Up).
  assert (Re : forall body, replies_ending_with E (chat_id msg) body
                            = [(chat_id msg, body)])
    by (intros; unfold replies_ending_with, delivered; now rewrite Up).
  pose proof (run_summary E v msg db) as Sum. cbv zeta in Sum.
  destruct (request_facts E v msg db) as (_ & _ & Facts).
  destruct (fst (request E v msg (start db))) as [[raw|]|e].
  - destruct (JSON_parse E (opt_str raw)) as [fd|e].
    + destruct (truthy fd && not_null (field fd k_value)).
      * destruct Sum as (_ & Sum).
        destruct (supabase_insert E db (the_row (at_insert E v fd))).
        -- destruct Sum as (_ & -> & ->). rewrite St, Re. eauto.
        -- destruct Sum as (_ & Sum).
           destruct (confirmation E v (at_insert E v fd)) as [body|];
             destruct Sum as (-> & ->); rewrite ?St, ?Re, ?Ap; eauto.
      * destruct Sum as (_ & _ & -> & ->). rewrite St, Re. eauto.
    + destruct Sum as (_ & _ & -> & ->). rewrite St, Re. eauto.
  - destruct Sum as (_ & _ & -> & ->). cbn [fst]. eauto.
  - destruct Sum as (_ & _ & -> & ->). rewrite Ap.
    destruct Facts as [(-> & _)|(_ & D & _)]; [cbn [app]; eauto|].
    rewrite Up in D. discriminate.
Qed.

(** X5.  A row is offered to the store exactly when the model's answer
    parsed to a truthy value whose [value] is not [null]; nothing else
    (a failed request, an unparsable answer, a falsy value, a [null] value)
    reaches the store. *)
Theorem offered_iff_qualified v msg db :
  inserts (events (snd (on_message E v msg (start db)))) <> [] <->
  exists raw fd,
    fst (request E v msg (start db)) = Ok (Some raw) /\
    JSON_parse E (opt_str raw) = Ok fd /\
    truthy fd = true /\ field fd k_value <> VNull.
Proof.
  pose proof (run_summary E v msg db) as Sum. cbv zeta in Sum.
  split.
  - intros Offered.
    destruct (fst (request E v msg (start db))) as [[raw|]|e] eqn:R;
      try (destruct Sum as (_ & I & _); now elim Offered).
    destruct (JSON_parse E (opt_str raw)) as [fd|e] eqn:P;
      try (destruct Sum as (_ & I & _); now elim Offered).
    destruct (truthy fd) eqn:T; cbn [andb] in Sum;
      [destruct (not_null (field fd k_value)) eqn:N|];
      try (destruct Sum as (_ & I & _); now elim Offered).
    exists raw, fd. split; [reflexivity|]. split; [exact P|].
    split; [exact T|]. intros V. rewrite V in N. discriminate.
  - intros (raw & fd & R & P & T & N). rewrite R, P, T in Sum.
    assert (N' : not_null (field fd k_value) = true)
      by (destruct (field fd k_value); try reflexivity; now elim N).
    rewrite N' in Sum. cbn [andb] in Sum. destruct Sum as (-> & _).
    discriminate.
Qed.

(** X6.  A message without a photo never causes a file lookup or a
    download, and the text-only handler never causes one at all. *)
Theorem no_fetch_without_photo v msg db :
  v = TextOnly \/ photo msg = None ->
  fetches (events (snd (on_message E v msg (start db)))) = [].
Proof.
  intros Plain.
  destruct (on_message_trace E v msg (start db)) as (evs & -> & _ & F).
  rewrite fetches_app, F, app_nil_r.
  destruct v.
  - open_monad. ask_world; reflexivity.
  - destruct Plain as [|NoPhoto]; [discriminate|].
    open_monad. rewrite NoPhoto. ask_world; reflexivity.
  - destruct Plain as [|NoPhoto]; [discriminate|].
    open_monad. rewrite NoPhoto. ask_world; reflexivity.
Qed.

(** X7.  In the photo-capable handlers a message that carries a photo is
    handled as if it had no text: the photo branch is taken first and the
    text is never read. *)
Theorem photo_message_text_is_ignored v msg w :
  v <> TextOnly ->
  photo msg <> None ->
  on_message E v msg w = on_message E v (without_text msg) w.
Proof.
  intros Capable HasPhoto.
  destruct msg as [chat t [sizes|]]; [|now elim HasPhoto].
  destruct v; [now elim Capable| |]; reflexivity.
Qed.

(** X8.  What the model is asked is fixed by the message: for a message
    handled as text, the extraction prompt, a blank line, the words
    "Message to analyze: " and the text as it came ("undefined" when there is
    none); for a message handled as a photo, the extraction prompt and one
    image part tagged [image/jpeg]. *)
Theorem model_is_asked_with_the_prompt v msg db c :
  In c (ai_calls (events (snd (on_message E v msg (start db))))) ->
  (c = Text (EXTRACTION_PROMPT v ++ LF ++ LF ++ "Message to analyze: "
             ++ opt_str (text msg)) /\
   (v = TextOnly \/ photo msg = None)) \/
  (exists data, c = WithImage (EXTRACTION_PROMPT v) data "image/jpeg") /\
  v <> TextOnly /\ photo msg <> None.
Proof.
  destruct (on_message_trace E v msg (start db)) as (evs & -> & A & _).
  rewrite ai_calls_app, A, app_nil_r.
  destruct v; open_monad; unfold text_prompt.
  - ask_world; cbn [ai_calls flat_map app]; intros [<-|[]]; left; auto.
  - destruct (photo msg) as [sizes|] eqn:Ph; ask_world;
      cbn [ai_calls flat_map app]; intros H;
      first [destruct H as [<-|[]] | destruct H];
      solve [ left; auto
            | right; repeat split; eauto; discriminate ].
  - destruct (photo msg) as [sizes|] eqn:Ph; ask_world;
      cbn [ai_calls flat_map app]; intros H;
      first [destruct H as [<-|[]] | destruct H];
      solve [ left; auto
            | right; repeat split; eauto; discriminate ].
Qed.

(** X9.  When the model has been asked and the request fails (the model
    call is rejected or its answer cannot be read), nothing is offered to
    the store, the table is unchanged, the error is logged, the model is not
    asked again, and the only reply is the catch-all apology. *)
Theorem failed_model_call_is_apologized v msg db e :
  fst (request E v msg (start db)) = Throw e ->
  ai_calls (events (snd (request E v msg (start db)))) <> [] ->
  let w' := snd (on_message E v msg (start db)) in
  payments w' = db /\
  inserts (events w') = [] /\
  length (ai_calls (events w')) = 1 /\
  In (EvLog "Error processing message:" (LExn e)) (events w') /\
  sent (events w') = [(chat_id msg, REPLY_GENERIC)].
Proof.
  intros Failed Asked w'. subst w'.
  pose proof (run_summary E v msg db) as Sum. cbv zeta in Sum.
  destruct (request_facts E v msg db) as (_ & _ & Facts).
  rewrite Failed in Sum, Facts. destruct Sum as (Pay & I & S & _).
  destruct Facts as [(Quiet & Le)|(_ & _ & None)]; [|now elim Asked].
  destruct (on_message_trace E v msg (start db)) as (evs & Ev & A & _).
  repeat split; auto.
  - rewrite Ev, ai_calls_app, A, app_nil_r.
    destruct (ai_calls (events (snd (request E v msg (start db)))))
      as [|c [|c' rest]]; [now elim Asked | reflexivity | cbn in Le; lia].
  - rewrite (on_message_cases E v msg (start db)), Failed. cbn [snd events].
    apply in_or_app. right. now left.
  - rewrite S, Quiet. reflexivity.
Qed.

(** X10.  In the photo-capable handlers, when Telegram cannot resolve the
    last photo size, the handling is exactly: the file lookup, the error
    log and the catch-all apology.  Nothing is downloaded, the model is not
    asked and the store is not touched. *)
Theorem unresolved_photo_is_apologized v msg db front p e :
  v <> TextOnly ->
  photo msg = Some (front ++ [p])%list ->
  bot_getFile E (file_id p) = Throw e ->
  on_message E v msg (start db) =
  (after_apology E (chat_id msg),
   {| payments := db;
      events := EvGetFile (file_id p) :: apology (chat_id msg) e |}).
Proof.
  intros Capable Photos Unresolved.
  rewrite (on_message_throws E v msg (start db) e
             {| payments := db; events := [EvGetFile (file_id p)] |});
    [reflexivity|].
  destruct v; [now elim Capable| |];
    unfold on_message_body, request, normalize; open_monad;
    rewrite Photos, last_element_snoc, Unresolved; reflexivity.
Qed.

(** X11.  In the photo-capable handlers, when the download of the resolved
    file fails, the handling is exactly: the file lookup, the download
    attempt at the URL built from the bot token and the file path, the error
    log and the catch-all apology.  The model is not asked and the store is
    not touched. *)
Theorem failed_download_is_apologized v msg db front p info e :
  v <> TextOnly ->
  photo msg = Some (front ++ [p])%list ->
  bot_getFile E (file_id p) = Ok info ->
  axios_get E ("https://api.telegram.org/file/bot"
               ++ opt_str (TELEGRAM_BOT_TOKEN E) ++ "/"
               ++ opt_str (file_path info)) = Throw e ->
  on_message E v msg (start db) =
  (after_apology E (chat_id msg),
   {| payments := db;
      events := EvGetFile (file_id p)
                :: EvHttpGet ("https://api.telegram.org/file/bot"
                              ++ opt_str (TELEGRAM_BOT_TOKEN E) ++ "/"
                              ++ opt_str (file_path info))
                :: apology (chat_id msg) e |}).
Proof.
  intros Capable Photos Resolved Failed.
  rewrite (on_message_throws E v msg (start db) e
             {| payments := db;
                events := [EvGetFile (file_id p); EvHttpGet (fileUrl E info)] |});
    [reflexivity|].
  destruct v; [now elim Capable| |];
    unfold on_message_body, request, normalize; open_monad;
    rewrite Photos, last_element_snoc, Resolved; tidy;
    unfold fileUrl; rewrite Failed; reflexivity.
Qed.


(** X13.  The row is stored before the confirmation is built.  When the
    parsed value qualifies, the store accepts, and a member printed in the
    confirmation cannot be converted to a string (here the description), the
    row stays in the table and the only reply is the catch-all apology. *)
Theorem stored_row_without_confirmation v msg db raw fd e :
  fst (request E v msg (start db)) = Ok (Some raw) ->
  JSON_parse E (opt_str raw) = Ok fd ->
  truthy fd = true ->
  field fd k_value <> VNull ->
  ToString E (field fd k_description) = Throw e ->
  (forall row, supabase_insert E db row = None) ->
  let w' := snd (on_message E v msg (start db)) in
  exists row,
    payments w' = (db ++ [row])%list /\
    inserts (events w') = [row] /\
    r_description row = field fd k_description /\
    sent (events w') = [(chat_id msg, REPLY_GENERIC)].
Proof.
  intros R P T N Unprintable Accepts w'. subst w'.
  assert (N' : not_null (field fd k_value) = true)
    by (destruct (field fd k_value); try reflexivity; now elim N).
  destruct (at_insert_fields E v fd T) as (T' & Same).
  assert (exists e', confirmation E v (at_insert E v fd) = Throw e') as [e' C].
  { assert (exists e', recorded_lines E (at_insert E v fd) = Throw e')
      as [e' L]; [|exists e'; now apply confirmation_needs_lines].
    unfold recorded_lines. rewrite !(get_truthy _ _ T'). cbn [rbind].
    destruct (ToString E (field (at_insert E v fd) k_value)); cbn [rbind]; eauto.
    rewrite (Same k_description), Unprintable by discriminate. cbn [rbind]. eauto. }
  pose proof (run_summary E v msg db) as Sum. cbv zeta in Sum.
  rewrite R, P, T, N' in Sum. cbn [andb] in Sum.
  rewrite Accepts, C in Sum. destruct Sum as (I & Pay & S & _).
  exists (the_row (at_insert E v fd)). repeat split; auto.
  cbn [the_row r_description]. apply Same. discriminate.
Qed.

(** X14.  The richer confirmation of a well-shaped record, in full: the
    header, the amount, the description, the category, the date, and then
    one labelled line for each of location, merchant, payment method and
    notes that is a non-empty string, in that order.  Building it never
    throws. *)
Theorem richer_confirmation_in_full fd n :
  is_ExtractionResult fd = true ->
  field fd k_value = VNum n ->
  confirmation_schema E fd =
  Ok (lines [ RECORDED; EmptyString;
              "Amount: $" ++ Number_toString E n;
              "Description: " ++ shown (field fd k_description);
              "Category: " ++ shown (field fd k_category);
              "Date: " ++ Date_toLocaleDateString E (field fd k_payed_at) ]
      ++ data_line (field fd k_data) k_location "Location"
      ++ data_line (field fd k_data) k_merchant "Merchant"
      ++ data_line (field fd k_data) k_payment_method "Payment Method"
      ++ data_line (field fd k_data) k_notes "Notes").
Proof.
  intros Ty V. pose proof (typed_truthy fd Ty) as T.
  destruct (typed_object fd Ty) as [props ->].
  unfold is_ExtractionResult in Ty.
  apply andb_prop in Ty as [Ty Hdata].
  apply andb_prop in Ty as [Ty Hpayed].
  apply andb_prop in Ty as [Ty Hcat].
  apply andb_prop in Ty as [_ Hdesc].
  unfold confirmation_schema, recorded_lines.
  rewrite !(get_truthy _ _ T), V. cbn [rbind ToString].
  rewrite (shown_nullable E _ Hdesc), (shown_nullable E _ Hcat). cbn [rbind].
  rewrite (localeDate_of_nullable E _ Hpayed). cbn [rbind].
  cbn [lines]. unfold HEADER.
  destruct (field (VObj props) k_data) as [| | | | | |members];
    try discriminate; cbn [truthy].
  1, 2: unfold data_line; cbn [field get rbind];
        now rewrite !append_nil_r, !append_assoc.
  rewrite !(optional_line_closed E members _ _ _ Hdata). cbn [rbind].
  rewrite !(optional_line_closed E members _ _ _ Hdata). cbn [rbind].
  rewrite !(optional_line_closed E members _ _ _ Hdata). cbn [rbind].
  rewrite !(optional_line_closed E members _ _ _ Hdata).
  now rewrite !append_assoc.
Qed.

(** X15.  The confirmation of the two simpler handlers for a well-shaped
    record, in full: the header, the amount, the description, the category,
    and a date line exactly when [payed_at] is a non-empty string.  Building
    it never throws. *)
Theorem simple_confirmation_in_full fd n :
  is_ExtractionResult fd = true ->
  field fd k_value = VNum n ->
  confirmation_simple E fd =
  Ok (lines [ RECORDED; EmptyString;
              "Amount: $" ++ Number_toString E n;
              "Description: " ++ shown (field fd k_description);
              "Category: " ++ shown (field fd k_category) ]
      ++ match field fd k_payed_at with
         | VStr s => if String.eqb s EmptyString then EmptyString
                     else LF ++ "Date: " ++ Date_toLocaleDateString E (VStr s)
         | _ => EmptyString
         end).
Proof.
  intros Ty V. pose proof (typed_truthy fd Ty) as T.
  destruct (typed_object fd Ty) as [props ->].
  unfold is_ExtractionResult in Ty.
  apply andb_prop in Ty as [Ty _].
  apply andb_prop in Ty as [Ty Hpayed].
  apply andb_prop in Ty as [Ty Hcat].
  apply andb_prop in Ty as [_ Hdesc].
  unfold confirmation_simple, recorded_lines.
  rewrite !(get_truthy _ _ T), V. cbn [rbind ToString].
  rewrite (shown_nullable E _ Hdesc), (shown_nullable E _ Hcat). cbn [rbind].
  cbn [lines]. unfold HEADER.
  destruct (field (VObj props) k_payed_at); try discriminate; cbn [truthy rbind].
  1, 2: now rewrite !append_assoc.
  destruct (String.eqb s EmptyString); cbn [negb rbind];
    [|cbn [localeDate ToPrimitive rbind]]; now rewrite !append_assoc.
Qed.

(** X16.  [a[a.length - 1]] is [undefined] exactly for the empty array, and
    otherwise is the element no other element follows. *)
Theorem last_element_is_the_last {A : Type} (a : list A) :
  (last_element a = None <-> a = []) /\
  (forall x, last_element a = Some x <-> exists front, a = (front ++ [x])%list).
Proof.
  destruct a as [|y a'] using rev_ind.
  - split; [split; reflexivity|]. intros x. split; [discriminate|].
    intros [front Eq]. now destruct front.
  - rewrite last_element_snoc. split.
    + split; [discriminate|]. intros Eq. now destruct a'.
    + intros x. split.
      * intros [= ->]. eauto.
      * intros [front Eq]. now apply app_inj_tail in Eq as [_ ->].
Qed.

(** X17.  [getImageAsBase64] makes exactly one HTTP request, for the URL it
    is given, and touches nothing else.  When the request fails it throws
    the client's error; when it succeeds it returns a text of four
    characters for every started group of three downloaded bytes, made of
    base64 digits and padding only. *)
Theorem getImageAsBase64_contract url w :
  payments (snd (getImageAsBase64 E url w)) = payments w /\
  events (snd (getImageAsBase64 E url w)) = (events w ++ [EvHttpGet url])%list /\
  match axios_get E url with
  | Throw e => fst (getImageAsBase64 E url w) = Throw e
  | Ok bytes =>
      exists data,
        fst (getImageAsBase64 E url w) = Ok data /\
        String.length data = 4 * ((length bytes + 2) / 3) /\
        forallb b64_char (list_ascii_of_string data) = true
  end.
Proof.
  unfold getImageAsBase64. open_monad.
  destruct (axios_get E url) as [bytes|e]; cbn [fst snd payments events];
    repeat split.
  exists (base64 bytes). repeat split.
  - apply base64_length.
  - apply base64_chars.
Qed.

(** X18.  The two versions of [processFinancialData] offer rows for the
    same parsed values, and the rows agree in [value], [description],
    [category] and [data].  They differ at most in [payed_at], where the
    richer version keeps a truthy value and otherwise stores the current
    time (for an object or array) or leaves it [undefined] (for a number,
    boolean or string). *)
Theorem versions_offer_the_same_row fd chat db :
  let richer := inserts (events (snd (processFinancialData_schema E fd chat (start db)))) in
  let simpler := inserts (events (snd (processFinancialData_simple E fd chat (start db)))) in
  (richer = [] /\ simpler = []) \/
  exists r s,
    richer = [r] /\ simpler = [s] /\
    r_value r = r_value s /\
    r_description r = r_description s /\
    r_category r = r_category s /\
    r_data r = r_data s /\
    r_payed_at r = (if truthy (r_payed_at s) then r_payed_at s
                    else if object_like fd then VStr (Date_now_toISOString E)
                    else VUndefined).
Proof.
  intros richer simpler. subst richer simpler.
  change (processFinancialData_schema E) with (processFinancialData E Schema).
  change (processFinancialData_simple E) with (processFinancialData E Photo).
  rewrite !process_offers. cbn [start events app].
  destruct (truthy fd) eqn:T; cbn [andb]; [|now left].
  destruct (not_null (field fd k_value)); [|now left].
  right. exists (the_row (at_insert E Schema fd)), (the_row (at_insert E Photo fd)).
  cbn [at_insert].
  destruct (default_payed_at_truthy E fd T) as (fd' & -> & _ & Pa & Same & _).
  cbn [the_row r_value r_description r_category r_data r_payed_at].
  rewrite (Same k_value), (Same k_description), (Same k_category), (Same k_data)
    by discriminate.
  repeat split. exact Pa.
Qed.

(** X19.  In the schema-enforced handler, when the parsed value is an
    object or an array that qualifies, the [payed_at] offered to the store is
    never falsy: a truthy parsed [payed_at] is kept, and anything else
    ([null], missing, the empty string, [0], [false]) is replaced by the
    current time.  The clock's text is assumed non-empty, as an ISO
    timestamp is. *)
Theorem offered_payed_at_is_never_falsy msg db raw fd :
  fst (request E Schema msg (start db)) = Ok (Some raw) ->
  JSON_parse E (opt_str raw) = Ok fd ->
  object_like fd = true ->
  field fd k_value <> VNull ->
  Date_now_toISOString E <> EmptyString ->
  exists row,
    inserts (events (snd (on_message E Schema msg (start db)))) = [row] /\
    truthy (r_payed_at row) = true /\
    r_payed_at row = (if truthy (field fd k_payed_at) then field fd k_payed_at
                      else VStr (Date_now_toISOString E)).
Proof.
  intros R P Obj N Clock.
  pose proof (object_like_truthy fd Obj) as T.
  assert (N' : not_null (field fd k_value) = true)
    by (destruct (field fd k_value); try reflexivity; now elim N).
  pose proof (run_summary E Schema msg db) as Sum. cbv zeta in Sum.
  rewrite R, P, T, N' in Sum. cbn [andb] in Sum. destruct Sum as (I & _).
  exists (the_row (at_insert E Schema fd)). split; [exact I|].
  cbn [at_insert the_row r_payed_at].
  destruct (default_payed_at_truthy E fd T) as (fd' & -> & _ & -> & _).
  unfold payed_at_after. rewrite Obj.
  destruct (truthy (field fd k_payed_at)) eqn:Tp; split; auto.
  cbn [truthy]. destruct (String.eqb_spec (Date_now_toISOString E) EmptyString);
    [now elim Clock | reflexivity].
Qed.

End Beyond.

(** The dinner record in the richer confirmation: location and payment
    method get a line, the [null] merchant and the empty notes do not. *)
Example dinner_confirmation :
  confirmation_schema Run.lunch_env More.dinner =
  Ok (lines [ RECORDED; EmptyString; "Amount: $42"; "Description: dinner";
              "Category: food"; "Date: 11/2/2026"; "Location: Bogota";
              "Payment Method: card" ]).
Proof. vm_compute. reflexivity. Qed.

Lemma one_reply_witness :
  fst (on_message Run.lunch_env Schema Run.lunch_message (start [])) = Ok tt /\
  exists body,
    sent (events (snd (on_message Run.lunch_env Schema Run.lunch_message (start []))))
    = [(chat_id Run.lunch_message, body)].
Proof.
  apply (one_reply_when_telegram_delivers Run.lunch_env Schema Run.lunch_message []).
  intros chat body. reflexivity.
Defined.

Lemma no_fetch_witness :
  fetches (events (snd (on_message Run.lunch_env Photo Run.lunch_message (start []))))
  = [].
Proof.
  apply (no_fetch_without_photo Run.lunch_env Photo Run.lunch_message []).
  right. reflexivity.
Defined.

Lemma ignored_text_witness :
  on_message Run.lunch_env Schema More.captioned (start []) =
  on_message Run.lunch_env Schema (without_text More.captioned) (start []).
Proof.
  apply (photo_message_text_is_ignored Run.lunch_env Schema More.captioned (start []));
    discriminate.
Defined.

Lemma prompt_witness :
  let c := Text (EXTRACTION_PROMPT Photo ++ LF ++ LF ++ "Message to analyze: "
                 ++ "Spent $25.50 on lunch today") in
  (c = Text (EXTRACTION_PROMPT Photo ++ LF ++ LF ++ "Message to analyze: "
             ++ opt_str (text Run.lunch_message)) /\
   (Photo = TextOnly \/ photo Run.lunch_message = None)) \/
  (exists data, c = WithImage (EXTRACTION_PROMPT Photo) data "image/jpeg") /\
  Photo <> TextOnly /\ photo Run.lunch_message <> None.
Proof.
  apply (model_is_asked_with_the_prompt Run.lunch_env Photo Run.lunch_message []).
  left. reflexivity.
Defined.

Lemma failed_model_call_witness :
  let w' := snd (on_message More.model_down TextOnly Run.lunch_message (start [])) in
  payments w' = [] /\
  inserts (events w') = [] /\
  length (ai_calls (events w')) = 1 /\
  In (EvLog "Error processing message:" (LExn (ServiceError "503"))) (events w') /\
  sent (events w') = [(chat_id Run.lunch_message, REPLY_GENERIC)].
Proof.
  apply (failed_model_call_is_apologized More.model_down TextOnly
           Run.lunch_message [] (ServiceError "503")).
  - reflexivity.
  - discriminate.
Defined.

Lemma unresolved_photo_witness :
  on_message (More.fetching false true) Schema Run.receipt_message (start []) =
  (after_apology (More.fetching false true) (chat_id Run.receipt_message),
   {| payments := [];
      events := EvGetFile (file_id Run.large)
                :: apology (chat_id Run.receipt_message)
                     (ServiceError "400 Bad Request: invalid file_id") |}).
Proof.
  apply (unresolved_photo_is_apologized (More.fetching false true) Schema
           Run.receipt_message [] [Run.small] Run.large).
  - discriminate.
  - reflexivity.
  - reflexivity.
Defined.

Lemma failed_download_witness :
  let E := More.fetching true false in
  on_message E Photo Run.receipt_message (start []) =
  (after_apology E (chat_id Run.receipt_message),
   {| payments := [];
      events := EvGetFile (file_id Run.large)
                :: EvHttpGet ("https://api.telegram.org/file/bot"
                              ++ opt_str (TELEGRAM_BOT_TOKEN E) ++ "/"
                              ++ opt_str (file_path Run.jpeg_file))
                :: apology (chat_id Run.receipt_message) (ServiceError "ETIMEDOUT") |}).
Proof.
  apply (failed_download_is_apologized (More.fetching true false) Photo
           Run.receipt_message [] [Run.small] Run.large Run.jpeg_file).
  - discriminate.
  - reflexivity.
  - reflexivity.
  - reflexivity.
Defined.


Lemma stored_row_witness :
  let w' := snd (on_message More.odd_env TextOnly Run.lunch_message (start [])) in
  exists row,
    payments w' = ([] ++ [row])%list /\
    inserts (events w') = [row] /\
    r_description row = field More.unprintable k_description /\
    sent (events w') = [(chat_id Run.lunch_message, REPLY_GENERIC)].
Proof.
  apply (stored_row_without_confirmation More.odd_env TextOnly Run.lunch_message []
           (Some "{}") More.unprintable
           (TypeError "Cannot convert object to primitive value")).
  - reflexivity.
  - reflexivity.
  - reflexivity.
  - discriminate.
  - reflexivity.
  - intros row. reflexivity.
Defined.

Lemma richer_confirmation_witness :
  let E := Run.lunch_env in
  let fd := More.dinner in
  confirmation_schema E fd =
  Ok (lines [ RECORDED; EmptyString;
              "Amount: $" ++ Number_toString E 42;
              "Description: " ++ shown (field fd k_description);
              "Category: " ++ shown (field fd k_category);
              "Date: " ++ Date_toLocaleDateString E (field fd k_payed_at) ]
      ++ data_line (field fd k_data) k_location "Location"
      ++ data_line (field fd k_data) k_merchant "Merchant"
      ++ data_line (field fd k_data) k_payment_method "Payment Method"
      ++ data_line (field fd k_data) k_notes "Notes").
Proof.
  apply (richer_confirmation_in_full Run.lunch_env More.dinner 42); reflexivity.
Defined.

Lemma simple_confirmation_witness :
  let E := Run.lunch_env in
  let fd := More.dinner in
  confirmation_simple E fd =
  Ok (lines [ RECORDED; EmptyString;
              "Amount: $" ++ Number_toString E 42;
              "Description: " ++ shown (field fd k_description);
              "Category: " ++ shown (field fd k_category) ]
      ++ match field fd k_payed_at with
         | VStr s => if String.eqb s EmptyString then EmptyString
                     else LF ++ "Date: " ++ Date_toLocaleDateString E (VStr s)
         | _ => EmptyString
         end).
Proof.
  apply (simple_confirmation_in_full Run.lunch_env More.dinner 42); reflexivity.
Defined.

Lemma never_falsy_witness :
  let E := Run.lunch_env in
  exists row,
    inserts (events (snd (on_message E Schema Run.lunch_message (start [])))) = [row] /\
    truthy (r_payed_at row) = true /\
    r_payed_at row = (if truthy (field Sample.lunch k_payed_at)
                      then field Sample.lunch k_payed_at
                      else VStr (Date_now_toISOString E)).
Proof.
  apply (offered_payed_at_is_never_falsy Run.lunch_env Run.lunch_message []
           (Some Sample.LUNCH_JSON) Sample.lunch).
  - reflexivity.
  - reflexivity.
  - reflexivity.
  - discriminate.
  - discriminate.
Defined.
